(** * A typed HTTP client SDK: request composition, status check,
      response validation and session lifecycle.

    Shallow embedding of [axum_leptos_htmx_wc_sdk] ([types.py], [client.py]).

    - JSON values are the Python values that [res.json()] returns and that
      the [json=] argument of a request receives.
    - The pydantic models of [types.py] are records, each in a module of
      its own with its [model_validate].
    - The methods of [Client] run in a state-and-exception monad whose state
      is the underlying [httpx.AsyncClient] (lifecycle state, number of
      transport releases, log of the requests sent). *)

From Stdlib Require Import PrimFloat ZArith String Ascii List Bool Lia.
Import ListNotations.
Local Open Scope string_scope.
Local Open Scope list_scope.

Set Implicit Arguments.
Set Warnings "-inexact-float".

(** ** JSON values *)

#[warnings="-register-all"] Inductive JSON : Type :=
| JNull
| JBool (b : bool)
| JInt (n : Z)
| JFloat (f : float)
| JStr (s : string)
| JArr (items : list JSON)
| JObj (members : list (string * JSON)).

(** A Python [dict] with string keys, in insertion order. *)
Definition dict := list (string * JSON).

(** [d.get(k)]: the value stored under [k], if any. *)
Fixpoint lookup (k : string) (d : dict) : option JSON :=
  match d with
  | [] => None
  | (k', v) :: rest => if String.eqb k k' then Some v else lookup k rest
  end.

(** [k in d]. *)
Definition has_key (k : string) (d : dict) : bool :=
  match lookup k d with Some _ => true | None => false end.

Definition keys (d : dict) : list string := map fst d.

Definition is_none (j : JSON) : bool :=
  match j with JNull => true | _ => false end.

(** [None] becomes JSON [null]; this is what [json.dumps] does with the
    value of an optional argument that was not supplied. *)
Definition of_optional {A} (inj : A -> JSON) (o : option A) : JSON :=
  match o with Some a => inj a | None => JNull end.

(** ** Strings *)

Fixpoint mem_char (a : ascii) (chars : string) : bool :=
  match chars with
  | EmptyString => false
  | String c rest => Ascii.eqb a c || mem_char a rest
  end.

(** [s.rstrip(chars)]: [s] without its longest suffix made of characters
    of [chars]. *)
Fixpoint rstrip (chars : string) (s : string) : string :=
  match s with
  | EmptyString => EmptyString
  | String a rest =>
      match rstrip chars rest with
      | EmptyString => if mem_char a chars then EmptyString else String a EmptyString
      | kept => String a kept
      end
  end.

(** The last character of a string, if it has one. *)
Fixpoint last_char (s : string) : option ascii :=
  match s with
  | EmptyString => None
  | String a EmptyString => Some a
  | String _ rest => last_char rest
  end.

(** [s.endswith("/")]. *)
Definition ends_with_slash (s : string) : bool :=
  match last_char s with
  | Some a => Ascii.eqb a "/"%char
  | None => false
  end.

(** [c * n] for a one-character string [c]. *)
Fixpoint repeat_char (a : ascii) (n : nat) : string :=
  match n with
  | O => EmptyString
  | S m => String a (repeat_char a m)
  end.

(** The characters of a string as one-character strings: what iterating
    over a Python [str] yields. *)
Fixpoint chars_of (s : string) : list string :=
  match s with
  | EmptyString => []
  | String a rest => String a EmptyString :: chars_of rest
  end.

(** ** Exceptions *)

Inductive Exn : Type :=
| ApiError (status : Z) (message : string)   (* client.py, class ApiError *)
| ValidationError                            (* pydantic *)
| JSONDecodeError                            (* res.json() on a body that is not JSON *)
| TypeError                                  (* iterating a value that is not iterable *)
| RuntimeError                               (* httpx: request on a closed session *)
| TransportError.                            (* httpx: connection, DNS, timeout *)

Definition is_api_error (e : Exn) : bool :=
  match e with ApiError _ _ => true | _ => false end.

(** ** Validation primitives (pydantic)

    A validator reads a JSON value and gives the typed value, or [None]
    where pydantic raises [ValidationError]. *)

Definition validator (A : Type) := JSON -> option A.

Declare Scope opt_scope.
Delimit Scope opt_scope with opt.
Notation "x <- e ;; k" :=
  (match e with Some x => k | None => None end)
  (at level 61, e at next level, right associativity) : opt_scope.

(** [str]: a JSON string and nothing else (numbers are not coerced). *)
Definition str_validator : validator string :=
  fun j => match j with JStr s => Some s | _ => None end.

(** [dict[str, Any]]: any JSON object, values unchecked. *)
Definition dict_validator : validator dict :=
  fun j => match j with JObj o => Some o | _ => None end.

(** [T | None]. *)
Definition nullable {A} (v : validator A) : validator (option A) :=
  fun j => match j with
           | JNull => Some None
           | _ => option_map Some (v j)
           end.

Fixpoint validate_all {A} (v : validator A) (items : list JSON) : option (list A) :=
  match items with
  | [] => Some []
  | j :: rest =>
      (a <- v j ;; others <- validate_all v rest ;; Some (a :: others))%opt
  end.

(** [list[T]]. *)
Definition list_validator {A} (v : validator A) : validator (list A) :=
  fun j => match j with JArr items => validate_all v items | _ => None end.

(** A field declared without a default: it must be present. *)
Definition required {A} (v : validator A) (k : string) (o : dict) : option A :=
  match lookup k o with Some j => v j | None => None end.

(** A field declared [= default]: the default stands in for a missing key;
    a key that is present is validated. *)
Definition with_default {A} (v : validator A) (default : A) (k : string) (o : dict)
  : option A :=
  match lookup k o with Some j => v j | None => Some default end.

(** The coercions pydantic applies to the scalar types other than [str]
    ([int], [float], [bool]) depend on its lax-mode tables, which are not
    part of this package; the models are parametric in them. *)
Class Scalars : Type := {
  int_validator : validator Z;
  float_validator : validator float;
  bool_validator : validator bool
}.

(** The scalars taken as they stand in the JSON value, without coercion. *)
Definition exact_scalars : Scalars := {|
  int_validator := fun j => match j with JInt n => Some n | _ => None end;
  float_validator := fun j => match j with JFloat f => Some f | _ => None end;
  bool_validator := fun j => match j with JBool b => Some b | _ => None end
|}.

(** ** The models of [types.py] *)

Module ChatResponse.
Record t : Type := mk { session_id : string; stream_url : string }.

Definition model_validate : validator t :=
  fun j => match j with
           | JObj o =>
               (sid <- required str_validator "session_id" o ;;
                url <- required str_validator "stream_url" o ;;
                Some (mk sid url))%opt
           | _ => None
           end.
End ChatResponse.

Module Message.
Record t : Type := mk { role : string; content : string }.

Definition model_validate : validator t :=
  fun j => match j with
           | JObj o =>
               (r <- required str_validator "role" o ;;
                c <- required str_validator "content" o ;;
                Some (mk r c))%opt
           | _ => None
           end.
End Message.

Module RunResponse.
Record t : Type := mk { id : string; stream_url : string }.

Definition model_validate : validator t :=
  fun j => match j with
           | JObj o =>
               (i <- required str_validator "id" o ;;
                url <- required str_validator "stream_url" o ;;
                Some (mk i url))%opt
           | _ => None
           end.
End RunResponse.

Module KnowledgeBaseConfig.
Record t : Type := mk {
  embedding_provider : string;
  embedding_model : string;
  vector_dimensions : option Z;
  file_processor : string;
  chunk_strategy : string
}.

(** [KnowledgeBaseConfig()]: every field at its declared default. *)
Definition default : t := mk "" "" None "" "".

Definition model_validate `{Scalars} : validator t :=
  fun j => match j with
           | JObj o =>
               (ep <- with_default str_validator "" "embedding_provider" o ;;
                em <- with_default str_validator "" "embedding_model" o ;;
                vd <- with_default (nullable int_validator) None "vector_dimensions" o ;;
                fp <- with_default str_validator "" "file_processor" o ;;
                cs <- with_default str_validator "" "chunk_strategy" o ;;
                Some (mk ep em vd fp cs))%opt
           | _ => None
           end.
End KnowledgeBaseConfig.

Module KnowledgeBase.
Record t : Type := mk {
  id : string;
  name : string;
  description : option string;
  config : KnowledgeBaseConfig.t;
  created_at : string;
  updated_at : string
}.

Definition model_validate `{Scalars} : validator t :=
  fun j => match j with
           | JObj o =>
               (i <- required str_validator "id" o ;;
                n <- required str_validator "name" o ;;
                d <- with_default (nullable str_validator) None "description" o ;;
                c <- with_default KnowledgeBaseConfig.model_validate
                       KnowledgeBaseConfig.default "config" o ;;
                ca <- required str_validator "created_at" o ;;
                ua <- required str_validator "updated_at" o ;;
                Some (mk i n d c ca ua))%opt
           | _ => None
           end.
End KnowledgeBase.

Module CreateKnowledgeBaseRequest.
Record t : Type := mk { name : string; description : option string }.

(** [request.model_dump(exclude_none=...)]: the fields in declaration
    order; with [exclude_none] those whose value is [None] are left out. *)
Definition model_dump (exclude_none : bool) (r : t) : dict :=
  let fields := [("name", JStr (name r));
                 ("description", of_optional JStr (description r))] in
  if exclude_none
  then filter (fun kv => negb (is_none (snd kv))) fields
  else fields.
End CreateKnowledgeBaseRequest.

Module Document.
Record t : Type := mk {
  id : string;
  kb_id : string;
  filename : string;
  mime_type : option string;
  chunk_count : Z;
  status : string;
  error_message : option string
}.

Definition model_validate `{Scalars} : validator t :=
  fun j => match j with
           | JObj o =>
               (i <- required str_validator "id" o ;;
                kb <- required str_validator "kb_id" o ;;
                fn <- required str_validator "filename" o ;;
                mt <- with_default (nullable str_validator) None "mime_type" o ;;
                cc <- required int_validator "chunk_count" o ;;
                st <- required str_validator "status" o ;;
                em <- with_default (nullable str_validator) None "error_message" o ;;
                Some (mk i kb fn mt cc st em))%opt
           | _ => None
           end.
End Document.

Module SearchResult.
Record t : Type := mk {
  content : string;
  score : float;
  metadata : dict;
  document_id : option string
}.

Definition model_validate `{Scalars} : validator t :=
  fun j => match j with
           | JObj o =>
               (c <- required str_validator "content" o ;;
                s <- required float_validator "score" o ;;
                m <- required dict_validator "metadata" o ;;
                d <- with_default (nullable str_validator) None "document_id" o ;;
                Some (mk c s m d))%opt
           | _ => None
           end.
End SearchResult.

Module SearchResponse.
Record t : Type := mk { results : list SearchResult.t }.

Definition model_validate `{Scalars} : validator t :=
  fun j => match j with
           | JObj o =>
               (rs <- required (list_validator SearchResult.model_validate) "results" o ;;
                Some (mk rs))%opt
           | _ => None
           end.
End SearchResponse.

Module IngestResponse.
Record t : Type := mk { success : bool; chunk_count : Z }.

Definition model_validate `{Scalars} : validator t :=
  fun j => match j with
           | JObj o =>
               (s <- required bool_validator "success" o ;;
                n <- required int_validator "chunk_count" o ;;
                Some (mk s n))%opt
           | _ => None
           end.
End IngestResponse.

(** ** The HTTP session ([httpx.AsyncClient]) *)

Inductive Method : Type := GET | POST | DELETE.

Record Request : Type := {
  method : Method;
  url : string;
  json_body : option JSON      (* the [json=] argument, when there is one *)
}.

(** A response as the client reads it: [res.status_code], [res.text] and
    [res.json()], which is [None] where decoding the body raises. *)
Record Response : Type := {
  status_code : Z;
  text : string;
  json : option JSON
}.

(** [res.is_success]: the status is 2xx. *)
Definition is_success (res : Response) : bool :=
  (200 <=? status_code res)%Z && (status_code res <=? 299)%Z.

Inductive ClientState : Type := UNOPENED | OPENED | CLOSED.

(** The session object held in [Client._http]: its lifecycle state, how many
    times its transport was released, and the requests sent through it. *)
Record AsyncClient : Type := {
  state : ClientState;
  releases : nat;
  sent : list Request
}.

(** [httpx.AsyncClient()]. *)
Definition AsyncClient_new : AsyncClient :=
  {| state := UNOPENED; releases := 0; sent := [] |}.

(** The remote side: given the requests sent so far and a new request, a
    response, or [None] for a transport-level failure. *)
Definition Transport : Type := list Request -> Request -> option Response.

(** Computations over the session that return or raise. *)
Definition M (A : Type) : Type := AsyncClient -> (Exn + A) * AsyncClient.

Definition ret {A} (a : A) : M A := fun h => (inr a, h).

Definition raise {A} (e : Exn) : M A := fun h => (inl e, h).

Definition bind {A B} (m : M A) (k : A -> M B) : M B :=
  fun h => match m h with
           | (inr a, h') => k a h'
           | (inl e, h') => (inl e, h')
           end.

Declare Scope m_scope.
Delimit Scope m_scope with M.
Notation "x <- e ;; k" := (bind e (fun x => k))
  (at level 61, e at next level, right associativity) : m_scope.
Notation "e ;; k" := (bind e (fun _ => k))
  (at level 61, right associativity) : m_scope.

(** [AsyncClient.send]: refused on a closed session; otherwise the session
    is marked open, the request goes out and the transport answers.
    Before this point httpx builds the request from the URL and the body
    and can refuse either (a URL with a control character, a body it
    cannot encode) with nothing sent; that step is not modelled, so a
    request here is one that httpx accepted to build. *)
Definition send (transport : Transport) (req : Request) : M Response :=
  fun h =>
    match state h with
    | CLOSED => (inl RuntimeError, h)
    | _ =>
        let h' := {| state := OPENED; releases := releases h; sent := sent h ++ [req] |} in
        match transport (sent h) req with
        | Some res => (inr res, h')
        | None => (inl TransportError, h')
        end
    end.

(** [AsyncClient.aclose]: releases the transport unless the session is
    already closed. *)
Definition aclose : M unit :=
  fun h =>
    match state h with
    | CLOSED => (inr tt, h)
    | _ => (inr tt, {| state := CLOSED; releases := S (releases h); sent := sent h |})
    end.

(** [res.json()].  [JSONDecodeError] stands for whatever decoding the
    body raises: a body that is not JSON, and also one that is not valid
    UTF-8 or is nested too deeply. *)
Definition json_of (res : Response) : M JSON :=
  match json res with
  | Some j => ret j
  | None => raise JSONDecodeError
  end.

(** [Model.model_validate(j)]. *)
Definition validate {A} (v : validator A) (j : JSON) : M A :=
  match v j with
  | Some a => ret a
  | None => raise ValidationError
  end.

(** [for m in j]: the items of an array, the keys of an object, the
    characters of a string; other values are not iterable. *)
Definition iterate (j : JSON) : M (list JSON) :=
  match j with
  | JArr items => ret items
  | JObj o => ret (map JStr (keys o))
  | JStr s => ret (map JStr (chars_of s))
  | _ => raise TypeError
  end.

(** [[Model.model_validate(m) for m in items]]. *)
Fixpoint validate_each {A} (v : validator A) (items : list JSON) : M (list A) :=
  match items with
  | [] => ret []
  | j :: rest =>
      (a <- validate v j ;; others <- validate_each v rest ;; ret (a :: others))%M
  end.

(** ** The client ([client.py]) *)

(** The value of a parameter declared [p = default] when the caller gives
    it ([Some]) or leaves it out ([None]). *)
Definition arg_or_default {A} (default : A) (given : option A) : A :=
  match given with Some a => a | None => default end.

Module Client.

(** The attributes of a [Client]; [_http] is the session the monad threads. *)
Record t : Type := { base_url : string }.

(** [Client(base_url)]: the client and its freshly created session. *)
Definition __init__ (base_url : string) : t * AsyncClient :=
  ({| base_url := rstrip "/" base_url |}, AsyncClient_new).

Definition __aenter__ (self : t) : M t := ret self.

Definition __aexit__ (self : t) : M unit := aclose.

Definition close (self : t) : M unit := aclose.

(** [_check_response]: raise [ApiError] unless the response is successful. *)
Definition _check_response (res : Response) : M unit :=
  if negb (is_success res)
  then raise (ApiError (status_code res) (text res))
  else ret tt.

(** [run_stream_url]: a plain method, outside the monad. *)
Definition run_stream_url (self : t) (run_id : string) : string :=
  base_url self ++ "/api/runs/" ++ run_id ++ "/stream".

Section Operations.

Context {scalars : Scalars}.
Variable transport : Transport.

Definition get (u : string) : M Response :=
  send transport {| method := GET; url := u; json_body := None |}.

Definition post (u : string) (body : JSON) : M Response :=
  send transport {| method := POST; url := u; json_body := Some body |}.

Definition delete (u : string) : M Response :=
  send transport {| method := DELETE; url := u; json_body := None |}.

Definition chat (self : t) (message : string) (session_id : option string)
  : M ChatResponse.t :=
  (res <- post (base_url self ++ "/api/chat")
            (JObj [("message", JStr message);
                   ("session_id", of_optional JStr session_id)]) ;;
   _check_response res ;;
   j <- json_of res ;;
   validate ChatResponse.model_validate j)%M.

Definition get_messages (self : t) (session_id : string) : M (list Message.t) :=
  (res <- get (base_url self ++ "/api/sessions/" ++ session_id ++ "/messages") ;;
   _check_response res ;;
   j <- json_of res ;;
   items <- iterate j ;;
   validate_each Message.model_validate items)%M.

Definition create_run (self : t) (input_text : string) (context : option dict)
  : M RunResponse.t :=
  (res <- post (base_url self ++ "/api/runs")
            (JObj [("input", JStr input_text);
                   ("context", of_optional JObj context)]) ;;
   _check_response res ;;
   j <- json_of res ;;
   validate RunResponse.model_validate j)%M.

Definition list_knowledge_bases (self : t) : M (list KnowledgeBase.t) :=
  (res <- get (base_url self ++ "/api/knowledge") ;;
   _check_response res ;;
   j <- json_of res ;;
   items <- iterate j ;;
   validate_each KnowledgeBase.model_validate items)%M.

Definition create_knowledge_base (self : t) (request : CreateKnowledgeBaseRequest.t)
  : M KnowledgeBase.t :=
  (res <- post (base_url self ++ "/api/knowledge")
            (JObj (CreateKnowledgeBaseRequest.model_dump true request)) ;;
   _check_response res ;;
   j <- json_of res ;;
   validate KnowledgeBase.model_validate j)%M.

Definition get_knowledge_base (self : t) (kb_id : string) : M KnowledgeBase.t :=
  (res <- get (base_url self ++ "/api/knowledge/" ++ kb_id) ;;
   _check_response res ;;
   j <- json_of res ;;
   validate KnowledgeBase.model_validate j)%M.

Definition delete_knowledge_base (self : t) (kb_id : string) : M unit :=
  (res <- delete (base_url self ++ "/api/knowledge/" ++ kb_id) ;;
   _check_response res)%M.

Definition list_documents (self : t) (kb_id : string) : M (list Document.t) :=
  (res <- get (base_url self ++ "/api/knowledge/" ++ kb_id ++ "/documents") ;;
   _check_response res ;;
   j <- json_of res ;;
   items <- iterate j ;;
   validate_each Document.model_validate items)%M.

Definition search (self : t) (kb_id query : string)
  (limit : option Z) (min_score : option float) : M SearchResponse.t :=
  let limit := arg_or_default 5%Z limit in
  let min_score := arg_or_default 0.7%float min_score in
  (res <- post (base_url self ++ "/api/knowledge/" ++ kb_id ++ "/search")
            (JObj [("query", JStr query);
                   ("limit", JInt limit);
                   ("min_score", JFloat min_score)]) ;;
   _check_response res ;;
   j <- json_of res ;;
   validate SearchResponse.model_validate j)%M.

Definition ingest (self : t) (content : string) (metadata : option dict)
  : M IngestResponse.t :=
  (res <- post (base_url self ++ "/api/ingest")
            (JObj [("content", JStr content);
                   ("metadata", of_optional JObj metadata)]) ;;
   _check_response res ;;
   j <- json_of res ;;
   validate IngestResponse.model_validate j)%M.

End Operations.

End Client.

(** ** Calls on a client

    The public methods of [Client] as data, so that statements can range
    over every method and over sequences of calls.  The [context] of
    [create_run] and the [metadata] of [ingest], declared
    [dict[str, Any]], are taken to be mappings from strings to JSON
    values, which is what the [json=] argument can encode. *)

Inductive Call : Type :=
| call_chat (message : string) (session_id : option string)
| call_get_messages (session_id : string)
| call_create_run (input_text : string) (context : option dict)
| call_run_stream_url (run_id : string)
| call_list_knowledge_bases
| call_create_knowledge_base (request : CreateKnowledgeBaseRequest.t)
| call_get_knowledge_base (kb_id : string)
| call_delete_knowledge_base (kb_id : string)
| call_list_documents (kb_id : string)
| call_search (kb_id query : string) (limit : option Z) (min_score : option float)
| call_ingest (content : string) (metadata : option dict)
| call_close.

(** What a call hands back to its caller. *)
Inductive Value : Type :=
| VNone
| VUrl (u : string)
| VChat (r : ChatResponse.t)
| VMessages (ms : list Message.t)
| VRun (r : RunResponse.t)
| VKnowledgeBases (kbs : list KnowledgeBase.t)
| VKnowledgeBase (kb : KnowledgeBase.t)
| VDocuments (ds : list Document.t)
| VSearch (r : SearchResponse.t)
| VIngest (r : IngestResponse.t).

(** The methods that perform a network call. *)
Definition is_network (c : Call) : bool :=
  match c with
  | call_run_stream_url _ | call_close => false
  | _ => true
  end.

Section Calls.

Context {scalars : Scalars}.
Variable transport : Transport.

Definition fmap {A B} (f : A -> B) (m : M A) : M B :=
  (a <- m ;; ret (f a))%M.

Definition perform (self : Client.t) (c : Call) : M Value :=
  match c with
  | call_chat message session_id =>
      fmap VChat (Client.chat transport self message session_id)
  | call_get_messages session_id =>
      fmap VMessages (Client.get_messages transport self session_id)
  | call_create_run input_text context =>
      fmap VRun (Client.create_run transport self input_text context)
  | call_run_stream_url run_id =>
      ret (VUrl (Client.run_stream_url self run_id))
  | call_list_knowledge_bases =>
      fmap VKnowledgeBases (Client.list_knowledge_bases transport self)
  | call_create_knowledge_base request =>
      fmap VKnowledgeBase (Client.create_knowledge_base transport self request)
  | call_get_knowledge_base kb_id =>
      fmap VKnowledgeBase (Client.get_knowledge_base transport self kb_id)
  | call_delete_knowledge_base kb_id =>
      fmap (fun _ => VNone) (Client.delete_knowledge_base transport self kb_id)
  | call_list_documents kb_id =>
      fmap VDocuments (Client.list_documents transport self kb_id)
  | call_search kb_id query limit min_score =>
      fmap VSearch (Client.search transport self kb_id query limit min_score)
  | call_ingest content metadata =>
      fmap VIngest (Client.ingest transport self content metadata)
  | call_close =>
      fmap (fun _ => VNone) (Client.close self)
  end.

(** A block of calls run in order; the first exception ends the block. *)
Fixpoint run_block (self : Client.t) (calls : list Call) : M unit :=
  match calls with
  | [] => ret tt
  | c :: rest => (perform self c ;; run_block self rest)%M
  end.

(** The session after a caller made the given calls in order, going on
    after each call whether it returned or raised. *)
Definition session_after (self : Client.t) (calls : list Call) (h : AsyncClient)
  : AsyncClient :=
  fold_left (fun h c => snd (perform self c h)) calls h.

(** [async with Client(base_url) as client: <body>]: the session is
    created, [__aenter__] binds the client, the body runs, and [__aexit__]
    runs whether the body returned or raised; an exception of the body
    propagates afterwards. *)
Definition async_with {A} (base_url : string) (body : Client.t -> M A)
  : (Exn + A) * AsyncClient :=
  let (client0, http) := Client.__init__ base_url in
  match Client.__aenter__ client0 http with
  | (inl e, h) => (inl e, h)
  | (inr client, h) =>
      let (outcome, h1) := body client h in
      match Client.__aexit__ client0 h1 with
      | (inl e, h2) => (inl e, h2)
      | (inr _, h2) => (outcome, h2)
      end
  end.

End Calls.

(** ** Vocabulary of the statements *)

Unset Implicit Arguments.

(** A computation that leaves the session alone and raises no [ApiError]:
    decoding and validation are of this kind. *)
Definition quiet {A} (m : M A) : Prop :=
  forall h, snd (m h) = h /\ forall st msg, fst (m h) <> inl (ApiError st msg).

(** The session after a request went out. *)
Definition after_send (h : AsyncClient) (req : Request) : AsyncClient :=
  {| state := OPENED; releases := releases h; sent := sent h ++ [req] |}.

(** The shape every network method has: send, check the status, then
    decode and validate without touching the session. *)
Definition checked {A} (transport : Transport) (req : Request)
  (tail : Response -> M A) : M A :=
  (res <- send transport req ;; Client._check_response res ;; tail res)%M.

(** One call changes the session in one of three ways: not at all, by
    sending one request whose URL begins with the client's base address,
    or by closing it. *)
Inductive session_step (base : string) (h : AsyncClient) : AsyncClient -> Prop :=
| step_none : session_step base h h
| step_send (req : Request) :
    state h <> CLOSED ->
    String.prefix base (url req) = true ->
    session_step base h (after_send h req)
| step_close :
    state h <> CLOSED ->
    session_step base h
      {| state := CLOSED; releases := S (releases h); sent := sent h |}.

(** The transport has been released once if the session is closed and not
    at all otherwise. *)
Definition released_once (h : AsyncClient) : Prop :=
  releases h = match state h with CLOSED => 1 | _ => 0 end.

(** A field that may be left out: absent, or present with a value that the
    validator accepts. *)
Definition absent_or_valid {A} (v : validator A) (k : string) (o : dict) : Prop :=
  match lookup k o with
  | Some j => v j <> None
  | None => True
  end.

(** The value a request carries under key [k] of its JSON object body;
    [None] when the key is absent. *)
Definition body_member (k : string) (req : Request) : option JSON :=
  match json_body req with
  | Some (JObj o) => lookup k o
  | _ => None
  end.

Definition is_list_call (c : Call) : bool :=
  match c with
  | call_get_messages _ | call_list_knowledge_bases | call_list_documents _ => true
  | _ => false
  end.

(** The record type each data-returning method validates its payload
    against, as a validator of the whole payload. *)
Definition payload_validator {scalars : Scalars} (c : Call) : option (validator Value) :=
  let as_value {A} (inj : A -> Value) (v : validator A) : option (validator Value) :=
    Some (fun j => option_map inj (v j)) in
  match c with
  | call_chat _ _ => as_value VChat ChatResponse.model_validate
  | call_get_messages _ => as_value VMessages (list_validator Message.model_validate)
  | call_create_run _ _ => as_value VRun RunResponse.model_validate
  | call_list_knowledge_bases =>
      as_value VKnowledgeBases (list_validator KnowledgeBase.model_validate)
  | call_create_knowledge_base _ => as_value VKnowledgeBase KnowledgeBase.model_validate
  | call_get_knowledge_base _ => as_value VKnowledgeBase KnowledgeBase.model_validate
  | call_list_documents _ => as_value VDocuments (list_validator Document.model_validate)
  | call_search _ _ _ _ => as_value VSearch SearchResponse.model_validate
  | call_ingest _ _ => as_value VIngest IngestResponse.model_validate
  | call_run_stream_url _ | call_delete_knowledge_base _ | call_close => None
  end.

(** A server that answers every request with the same response. *)
Definition always (res : Response) : Transport := fun _ _ => Some res.

Definition not_found : Response :=
  {| status_code := 404; text := "Not Found"; json := None |}.

Definition ok_empty : Response :=
  {| status_code := 200; text := "{}"; json := Some (JObj []) |}.

Definition ok_json (j : JSON) : Response :=
  {| status_code := 200; text := "(body)"; json := Some j |}.

Definition created : Response :=
  {| status_code := 201; text := "(body)";
     json := Some (JObj [("id", JStr "r1"); ("stream_url", JStr "/api/runs/r1/stream")]) |}.



Definition localhost : Client.t := fst (Client.__init__ "http://localhost:3000").

Definition docs_request : CreateKnowledgeBaseRequest.t :=
  CreateKnowledgeBaseRequest.mk "docs" None.

(** ** Entities as objects (pydantic [BaseModel])

    What the classes of [types.py] inherit for assignment and comparison.
    An instance is seen through its [__dict__], which maps each declared
    field to its current value; a nested model stands there as the
    object of its own [__dict__]. *)

Module BaseModel.





End BaseModel.






(** [a == b] for two instances of one class: pydantic compares the fields,
    each with the [==] of its values.  Given here for the classes whose
    fields are strings, integers, booleans, optional ones of these, and
    the nested config; [SearchResult] and [SearchResponse], which hold a
    float and a free-form mapping, are left out. *)
Module Eq.



Definition message (a b : Message.t) : bool :=
  String.eqb (Message.role a) (Message.role b)
  && String.eqb (Message.content a) (Message.content b).







End Eq.


(** ** Summary of a call

    The request a method sends and what it makes of the response, as
    plain functions, for statements that range over all methods. *)

Definition is_closed (h : AsyncClient) : bool :=
  match state h with CLOSED => true | _ => false end.

(** The request each network method builds. *)
Definition request_of (self : Client.t) (c : Call) : option Request :=
  let base := Client.base_url self in
  let GET_ u := Some {| method := GET; url := u; json_body := None |} in
  let POST_ u body := Some {| method := POST; url := u; json_body := Some (JObj body) |} in
  let DELETE_ u := Some {| method := DELETE; url := u; json_body := None |} in
  match c with
  | call_chat message session_id =>
      POST_ (base ++ "/api/chat")%string
        [("message", JStr message); ("session_id", of_optional JStr session_id)]
  | call_get_messages session_id =>
      GET_ (base ++ "/api/sessions/" ++ session_id ++ "/messages")%string
  | call_create_run input_text context =>
      POST_ (base ++ "/api/runs")%string
        [("input", JStr input_text); ("context", of_optional JObj context)]
  | call_list_knowledge_bases =>
      GET_ (base ++ "/api/knowledge")%string
  | call_create_knowledge_base request =>
      POST_ (base ++ "/api/knowledge")%string
        (CreateKnowledgeBaseRequest.model_dump true request)
  | call_get_knowledge_base kb_id =>
      GET_ (base ++ "/api/knowledge/" ++ kb_id)%string
  | call_delete_knowledge_base kb_id =>
      DELETE_ (base ++ "/api/knowledge/" ++ kb_id)%string
  | call_list_documents kb_id =>
      GET_ (base ++ "/api/knowledge/" ++ kb_id ++ "/documents")%string
  | call_search kb_id query limit min_score =>
      POST_ (base ++ "/api/knowledge/" ++ kb_id ++ "/search")%string
        [("query", JStr query);
         ("limit", JInt (arg_or_default 5%Z limit));
         ("min_score", JFloat (arg_or_default 0.7%float min_score))]
  | call_ingest content metadata =>
      POST_ (base ++ "/api/ingest")%string
        [("content", JStr content); ("metadata", of_optional JObj metadata)]
  | call_run_stream_url _ | call_close => None
  end.

(** What iterating a JSON value yields, or the exception it raises. *)
Definition items_of (j : JSON) : Exn + list JSON :=
  match j with
  | JArr items => inr items
  | JObj o => inr (map JStr (keys o))
  | JStr s => inr (map JStr (chars_of s))
  | _ => inl TypeError
  end.

(** What a single-record method makes of a successful response. *)
Definition decode_record {A} (v : validator A) (inj : A -> Value) (res : Response)
  : Exn + Value :=
  match json res with
  | None => inl JSONDecodeError
  | Some j =>
      match v j with
      | Some a => inr (inj a)
      | None => inl ValidationError
      end
  end.

(** What a list method makes of a successful response. *)
Definition decode_list {A} (v : validator A) (inj : list A -> Value) (res : Response)
  : Exn + Value :=
  match json res with
  | None => inl JSONDecodeError
  | Some j =>
      match items_of j with
      | inl e => inl e
      | inr items =>
          match validate_all v items with
          | Some xs => inr (inj xs)
          | None => inl ValidationError
          end
      end
  end.

(** What each method makes of a successful response. *)
Definition outcome_of {scalars : Scalars} (c : Call) (res : Response) : Exn + Value :=
  match c with
  | call_chat _ _ => decode_record ChatResponse.model_validate VChat res
  | call_get_messages _ => decode_list Message.model_validate VMessages res
  | call_create_run _ _ => decode_record RunResponse.model_validate VRun res
  | call_list_knowledge_bases =>
      decode_list KnowledgeBase.model_validate VKnowledgeBases res
  | call_create_knowledge_base _ =>
      decode_record KnowledgeBase.model_validate VKnowledgeBase res
  | call_get_knowledge_base _ =>
      decode_record KnowledgeBase.model_validate VKnowledgeBase res
  | call_list_documents _ => decode_list Document.model_validate VDocuments res
  | call_search _ _ _ _ => decode_record SearchResponse.model_validate VSearch res
  | call_ingest _ _ => decode_record IngestResponse.model_validate VIngest res
  | call_delete_knowledge_base _ | call_run_stream_url _ | call_close => inr VNone
  end.

(** A transport on which every request fails to connect. *)
Definition refused : Transport := fun _ _ => None.

(** The empty list as each list method returns it. *)
Definition empty_list_of (c : Call) : Value :=
  match c with
  | call_get_messages _ => VMessages []
  | call_list_knowledge_bases => VKnowledgeBases []
  | call_list_documents _ => VDocuments []
  | _ => VNone
  end.

Definition no_content : Response :=
  {| status_code := 204; text := ""; json := None |}.

Definition two_messages : JSON :=
  JArr [JObj [("role", JStr "user"); ("content", JStr "hi")];
        JObj [("role", JStr "assistant"); ("content", JStr "hello")]].

(** The methods that read the body of a successful response. *)
Definition reads_body (c : Call) : bool :=
  match c with
  | call_delete_knowledge_base _ | call_run_stream_url _ | call_close => false
  | _ => true
  end.

Definition server_error : Response :=
  {| status_code := 500; text := "boom"; json := None |}.

(** The value of a field declared [str | None = None], read off the
    payload member of a record that validated. *)
Definition optional_str_of (member : option JSON) : option string :=
  match member with
  | Some (JStr s) => Some s
  | _ => None
  end.

(** * Properties *)

(** ** The definitions on small inputs *)

Example rstrip_two_slashes : rstrip "/" "http://localhost:3000//" = "http://localhost:3000".
Proof. reflexivity. Qed.

Example rstrip_inner_slashes_kept : rstrip "/" "http://h/api/" = "http://h/api".
Proof. reflexivity. Qed.

Example rstrip_only_slashes : rstrip "/" "///" = "".
Proof. reflexivity. Qed.

Example is_success_204 :
  is_success {| status_code := 204; text := ""; json := None |} = true.
Proof. reflexivity. Qed.

Example is_success_302 :
  is_success {| status_code := 302; text := ""; json := None |} = false.
Proof. reflexivity. Qed.

Example message_validates :
  Message.model_validate
    (JObj [("role", JStr "user"); ("content", JStr "hi"); ("extra", JInt 1)])
  = Some (Message.mk "user" "hi").
Proof. reflexivity. Qed.

Example message_needs_content :
  Message.model_validate (JObj [("role", JStr "user")]) = None.
Proof. reflexivity. Qed.

Example dump_without_description :
  CreateKnowledgeBaseRequest.model_dump true (CreateKnowledgeBaseRequest.mk "docs" None)
  = [("name", JStr "docs")].
Proof. reflexivity. Qed.

Example dump_keeps_none_when_asked :
  CreateKnowledgeBaseRequest.model_dump false (CreateKnowledgeBaseRequest.mk "docs" None)
  = [("name", JStr "docs"); ("description", JNull)].
Proof. reflexivity. Qed.

(** ** The monad *)

Lemma quiet_ret : forall A (a : A), quiet (ret a).
Proof. intros A a h; split; [reflexivity | intros st msg; discriminate]. Qed.

Lemma quiet_raise : forall A (e : Exn), is_api_error e = false -> quiet (@raise A e).
Proof.
  intros A e He h; split; [reflexivity | intros st msg Heq].
  simpl in Heq. injection Heq as ->. discriminate.
Qed.

Lemma quiet_bind : forall A B (m : M A) (k : A -> M B),
  quiet m -> (forall a, quiet (k a)) -> quiet (bind m k).
Proof.
  intros A B m k Hm Hk h. unfold bind.
  destruct (Hm h) as [Hs Hne]. destruct (m h) as [[e | a] h']; simpl in *; subst h'.
  - split; [reflexivity | intros st msg Heq].
    injection Heq as ->. exact (Hne st msg eq_refl).
  - exact (Hk a h).
Qed.

Lemma quiet_json_of : forall res, quiet (json_of res).
Proof.
  intros res. unfold json_of. destruct (json res).
  - apply quiet_ret.
  - apply quiet_raise; reflexivity.
Qed.

Lemma quiet_validate : forall A (v : validator A) j, quiet (validate v j).
Proof.
  intros A v j. unfold validate. destruct (v j).
  - apply quiet_ret.
  - apply quiet_raise; reflexivity.
Qed.

Lemma quiet_iterate : forall j, quiet (iterate j).
Proof.
  intros j. destruct j; simpl;
    first [apply quiet_ret | apply quiet_raise; reflexivity].
Qed.

Lemma quiet_validate_each : forall A (v : validator A) items,
  quiet (validate_each v items).
Proof.
  intros A v items. induction items as [| j rest IH]; simpl.
  - apply quiet_ret.
  - apply quiet_bind; [apply quiet_validate | intros a].
    apply quiet_bind; [exact IH | intros others; apply quiet_ret].
Qed.

Create HintDb quiet.

#[local] Hint Resolve quiet_ret quiet_bind quiet_json_of quiet_validate
  quiet_iterate quiet_validate_each : quiet.

Lemma send_not_closed : forall transport req h,
  state h <> CLOSED ->
  send transport req h =
    (match transport (sent h) req with
     | Some res => inr res
     | None => inl TransportError
     end, after_send h req).
Proof.
  intros transport req h Hopen. unfold send, after_send.
  destruct (state h); try congruence; destruct (transport (sent h) req); reflexivity.
Qed.

Lemma send_closed : forall transport req h,
  state h = CLOSED -> send transport req h = (inl RuntimeError, h).
Proof. intros transport req h Hc. unfold send. rewrite Hc. reflexivity. Qed.

Lemma checked_not_closed : forall A (transport : Transport) req (tail : Response -> M A) h,
  (forall res, quiet (tail res)) ->
  state h <> CLOSED ->
  snd (checked transport req tail h) = after_send h req /\
  match transport (sent h) req with
  | None => fst (checked transport req tail h) = inl TransportError
  | Some res =>
      if is_success res
      then fst (checked transport req tail h) = fst (tail res (after_send h req))
      else fst (checked transport req tail h) = inl (ApiError (status_code res) (text res))
  end.
Proof.
  intros A transport req tail h Hq Hopen. unfold checked, bind.
  rewrite send_not_closed by exact Hopen.
  destruct (transport (sent h) req) as [res |]; [| split; reflexivity].
  unfold Client._check_response. destruct (is_success res); simpl.
  - destruct (Hq res (after_send h req)) as [Hs _].
    destruct (tail res (after_send h req)) as [[e | a] h']; simpl in *; subst h';
      split; reflexivity.
  - split; reflexivity.
Qed.

Lemma checked_closed : forall A (transport : Transport) req (tail : Response -> M A) h,
  state h = CLOSED -> checked transport req tail h = (inl RuntimeError, h).
Proof.
  intros A transport req tail h Hc. unfold checked, bind.
  rewrite send_closed by exact Hc. reflexivity.
Qed.

Lemma prefix_append : forall s rest, String.prefix s (s ++ rest) = true.
Proof.
  induction s as [| a s IH]; intros rest; simpl.
  - destruct rest; reflexivity.
  - destruct (Ascii.ascii_dec a a) as [_ | Hne]; [apply IH | congruence].
Qed.

Ltac unfold_methods :=
  unfold perform, fmap,
    Client.chat, Client.get_messages, Client.create_run,
    Client.list_knowledge_bases, Client.create_knowledge_base,
    Client.get_knowledge_base, Client.delete_knowledge_base,
    Client.list_documents, Client.search, Client.ingest,
    Client.get, Client.post, Client.delete.

Section OperationShape.

Context {scalars : Scalars}.
Variable transport : Transport.

(* The request of the method at hand fixes the request of [checked]. *)
Ltac same_run h :=
  unfold_methods; unfold bind;
  lazymatch goal with
  | |- context [send transport ?r h] =>
      lazymatch goal with
      | |- _ = checked transport ?e _ h => unify e r
      end;
      unfold checked, bind;
      destruct (send transport r h) as [[e | res] h1]; [reflexivity |];
      destruct (Client._check_response res h1) as [[e | u] h2]; reflexivity
  end.

Ltac shape_of tail :=
  eexists; exists tail; split; [| split]; cycle 2;
  [ intros h; same_run h
  | apply prefix_append
  | unfold fmap; auto 10 with quiet ].

(** Every network method is one request whose URL begins with the stored
    base address, followed by the status check and a quiet tail. *)
Lemma perform_checked : forall (self : Client.t) (c : Call),
  is_network c = true ->
  exists req (tail : Response -> M Value),
    String.prefix (Client.base_url self) (url req) = true /\
    (forall res, quiet (tail res)) /\
    forall h, perform transport self c h = checked transport req tail h.
Proof.
  intros self c Hnet.
  destruct c; simpl in Hnet; try discriminate.
  - shape_of (fun res => fmap VChat
      (j <- json_of res ;; validate ChatResponse.model_validate j)%M).
  - shape_of (fun res => fmap VMessages
      (j <- json_of res ;; items <- iterate j ;;
       validate_each Message.model_validate items)%M).
  - shape_of (fun res => fmap VRun
      (j <- json_of res ;; validate RunResponse.model_validate j)%M).
  - shape_of (fun res => fmap VKnowledgeBases
      (j <- json_of res ;; items <- iterate j ;;
       validate_each KnowledgeBase.model_validate items)%M).
  - shape_of (fun res => fmap VKnowledgeBase
      (j <- json_of res ;; validate KnowledgeBase.model_validate j)%M).
  - shape_of (fun res => fmap VKnowledgeBase
      (j <- json_of res ;; validate KnowledgeBase.model_validate j)%M).
  - shape_of (fun _ : Response => ret VNone).
  - shape_of (fun res => fmap VDocuments
      (j <- json_of res ;; items <- iterate j ;;
       validate_each Document.model_validate items)%M).
  - shape_of (fun res => fmap VSearch
      (j <- json_of res ;; validate SearchResponse.model_validate j)%M).
  - shape_of (fun res => fmap VIngest
      (j <- json_of res ;; validate IngestResponse.model_validate j)%M).
Qed.

End OperationShape.

(** ** The status check *)

Lemma is_success_2xx : forall res,
  is_success res = true <-> (200 <= status_code res <= 299)%Z.
Proof.
  intros res. unfold is_success.
  rewrite andb_true_iff, !Z.leb_le. reflexivity.
Qed.

(** C1. Every method that performs a network call, on a session that is
    not closed, sends one request; whatever response the transport gives
    for it, a status outside 200..299 makes the call raise [ApiError] with
    exactly the response's status code and body text, and a status inside
    200..299 makes it raise no [ApiError]. *)
Theorem api_error_exactly_on_non_2xx :
  forall (scalars : Scalars) (transport : Transport)
         (self : Client.t) (c : Call) (h : AsyncClient),
    is_network c = true ->
    state h <> CLOSED ->
    exists req,
      sent (snd (perform transport self c h)) = sent h ++ [req] /\
      forall res, transport (sent h) req = Some res ->
        (~ (200 <= status_code res <= 299)%Z ->
           fst (perform transport self c h)
           = inl (ApiError (status_code res) (text res))) /\
        ((200 <= status_code res <= 299)%Z ->
           forall st msg, fst (perform transport self c h) <> inl (ApiError st msg)).
Proof.
  intros scalars transport self c h Hnet Hopen.
  destruct (perform_checked transport self c Hnet) as (req & tail & _ & Hq & Hrun).
  exists req. rewrite Hrun.
  destruct (checked_not_closed _ transport req tail h Hq Hopen) as [Hs Hr].
  split; [rewrite Hs; reflexivity |].
  intros res Hres. rewrite Hres in Hr.
  destruct (is_success res) eqn:Hok.
  - apply is_success_2xx in Hok. split; [intros Hn; contradiction |].
    intros _ st msg. rewrite Hr. apply (Hq res).
  - split; [intros _; exact Hr |].
    intros H2xx. apply is_success_2xx in H2xx. congruence.
Qed.

Lemma api_error_exactly_on_non_2xx_witness :
  exists req,
    sent (snd (perform (scalars := exact_scalars) (always not_found) (fst (Client.__init__ "http://localhost:3000/"))
                 (call_get_knowledge_base "kb1") AsyncClient_new))
    = sent AsyncClient_new ++ [req] /\
    forall res, always not_found (sent AsyncClient_new) req = Some res ->
      (~ (200 <= status_code res <= 299)%Z ->
         fst (perform (scalars := exact_scalars) (always not_found) (fst (Client.__init__ "http://localhost:3000/"))
                (call_get_knowledge_base "kb1") AsyncClient_new)
         = inl (ApiError (status_code res) (text res))) /\
      ((200 <= status_code res <= 299)%Z ->
         forall st msg,
           fst (perform (scalars := exact_scalars) (always not_found) (fst (Client.__init__ "http://localhost:3000/"))
                  (call_get_knowledge_base "kb1") AsyncClient_new)
           <> inl (ApiError st msg)).
Proof.
  apply (@api_error_exactly_on_non_2xx exact_scalars (always not_found)).
  - reflexivity.
  - discriminate.
Defined.

(** ** Outgoing requests *)

Lemma checked_sent : forall A (transport : Transport) req (tail : Response -> M A) h,
  (forall res, quiet (tail res)) ->
  state h <> CLOSED ->
  sent (snd (checked transport req tail h)) = sent h ++ [req].
Proof.
  intros A transport req tail h Hq Hopen.
  destruct (checked_not_closed A transport req tail h Hq Hopen) as [Hs _].
  rewrite Hs. reflexivity.
Qed.

Ltac sent_by_method :=
  intros;
  unfold Client.chat, Client.create_run, Client.create_knowledge_base,
    Client.search, Client.ingest, Client.post;
  apply checked_sent; [intros res; auto 10 with quiet | assumption].

Lemma chat_sent : forall (transport : Transport) self message session_id h,
  state h <> CLOSED ->
  sent (snd (Client.chat transport self message session_id h))
  = sent h ++ [{| method := POST;
                  url := Client.base_url self ++ "/api/chat";
                  json_body := Some (JObj [("message", JStr message);
                                           ("session_id", of_optional JStr session_id)]) |}].
Proof. sent_by_method. Qed.

Lemma create_run_sent : forall (transport : Transport) self input_text context h,
  state h <> CLOSED ->
  sent (snd (Client.create_run transport self input_text context h))
  = sent h ++ [{| method := POST;
                  url := Client.base_url self ++ "/api/runs";
                  json_body := Some (JObj [("input", JStr input_text);
                                           ("context", of_optional JObj context)]) |}].
Proof. sent_by_method. Qed.

Lemma ingest_sent : forall (scalars : Scalars) (transport : Transport)
    self content metadata h,
  state h <> CLOSED ->
  sent (snd (Client.ingest transport self content metadata h))
  = sent h ++ [{| method := POST;
                  url := Client.base_url self ++ "/api/ingest";
                  json_body := Some (JObj [("content", JStr content);
                                           ("metadata", of_optional JObj metadata)]) |}].
Proof. sent_by_method. Qed.

Lemma create_knowledge_base_sent : forall (scalars : Scalars) (transport : Transport)
    self request h,
  state h <> CLOSED ->
  sent (snd (Client.create_knowledge_base transport self request h))
  = sent h ++ [{| method := POST;
                  url := Client.base_url self ++ "/api/knowledge";
                  json_body := Some (JObj (CreateKnowledgeBaseRequest.model_dump true request)) |}].
Proof. sent_by_method. Qed.

Lemma search_sent : forall (scalars : Scalars) (transport : Transport)
    self kb_id query limit min_score h,
  state h <> CLOSED ->
  sent (snd (Client.search transport self kb_id query limit min_score h))
  = sent h ++ [{| method := POST;
                  url := Client.base_url self ++ "/api/knowledge/" ++ kb_id ++ "/search";
                  json_body := Some (JObj [("query", JStr query);
                                           ("limit", JInt (arg_or_default 5%Z limit));
                                           ("min_score",
                                            JFloat (arg_or_default 0.7%float min_score))]) |}].
Proof. sent_by_method. Qed.

(** C2 (as stated, refuted). [chat("Hello!")], with no session id, sends a
    body in which the key [session_id] is present and holds [null]. *)
Lemma chat_without_session_id_sends_null :
  map json_body
    (sent (snd (Client.chat (always ok_empty) localhost "Hello!" None AsyncClient_new)))
  = [Some (JObj [("message", JStr "Hello!"); ("session_id", JNull)])]
  /\ map (body_member "session_id")
       (sent (snd (Client.chat (always ok_empty) localhost "Hello!" None AsyncClient_new)))
     = [Some JNull].
Proof. split; reflexivity. Qed.

(** C2 (amended). [chat], [create_run] and [ingest] always send both keys
    of their body: when the optional argument ([session_id], [context],
    [metadata]) is not supplied its key is present with the value [null],
    and when it is supplied the key holds the supplied value. *)
Theorem optional_argument_sent_as_null :
  forall (scalars : Scalars) (transport : Transport) (self : Client.t) (h : AsyncClient),
    state h <> CLOSED ->
    (forall message,
        sent (snd (Client.chat transport self message None h))
        = sent h ++ [{| method := POST;
                        url := Client.base_url self ++ "/api/chat";
                        json_body := Some (JObj [("message", JStr message);
                                                 ("session_id", JNull)]) |}]) /\
    (forall message sid,
        sent (snd (Client.chat transport self message (Some sid) h))
        = sent h ++ [{| method := POST;
                        url := Client.base_url self ++ "/api/chat";
                        json_body := Some (JObj [("message", JStr message);
                                                 ("session_id", JStr sid)]) |}]) /\
    (forall input_text,
        sent (snd (Client.create_run transport self input_text None h))
        = sent h ++ [{| method := POST;
                        url := Client.base_url self ++ "/api/runs";
                        json_body := Some (JObj [("input", JStr input_text);
                                                 ("context", JNull)]) |}]) /\
    (forall input_text context,
        sent (snd (Client.create_run transport self input_text (Some context) h))
        = sent h ++ [{| method := POST;
                        url := Client.base_url self ++ "/api/runs";
                        json_body := Some (JObj [("input", JStr input_text);
                                                 ("context", JObj context)]) |}]) /\
    (forall content,
        sent (snd (Client.ingest transport self content None h))
        = sent h ++ [{| method := POST;
                        url := Client.base_url self ++ "/api/ingest";
                        json_body := Some (JObj [("content", JStr content);
                                                 ("metadata", JNull)]) |}]) /\
    (forall content metadata,
        sent (snd (Client.ingest transport self content (Some metadata) h))
        = sent h ++ [{| method := POST;
                        url := Client.base_url self ++ "/api/ingest";
                        json_body := Some (JObj [("content", JStr content);
                                                 ("metadata", JObj metadata)]) |}]).
Proof.
  intros scalars transport self h Hopen.
  repeat split; intros;
    first [ apply chat_sent | apply create_run_sent | apply (ingest_sent scalars) ];
    exact Hopen.
Qed.

Lemma optional_argument_sent_as_null_witness :
  sent (snd (Client.create_run (always ok_empty) localhost "summarise" None AsyncClient_new))
  = sent AsyncClient_new
    ++ [{| method := POST;
           url := Client.base_url localhost ++ "/api/runs";
           json_body := Some (JObj [("input", JStr "summarise"); ("context", JNull)]) |}].
Proof.
  assert (Hopen : state AsyncClient_new <> CLOSED) by discriminate.
  exact (proj1 (proj2 (proj2
    (optional_argument_sent_as_null exact_scalars (always ok_empty) localhost
       AsyncClient_new Hopen))) "summarise").
Defined.

(** ** [create_knowledge_base]: fields that are [None] are left out *)

Lemma model_dump_exclude_none : forall r,
  CreateKnowledgeBaseRequest.model_dump true r
  = ("name", JStr (CreateKnowledgeBaseRequest.name r))
    :: match CreateKnowledgeBaseRequest.description r with
       | Some d => [("description", JStr d)]
       | None => []
       end.
Proof. intros [n [d |]]; reflexivity. Qed.

(** C3. [create_knowledge_base] sends as body the fields of the request
    whose value is not [None], and only those: [name] is always there;
    [description] is there with its value when given and is no key of the
    body at all when not given; no member of the body is [null]. *)
Theorem create_knowledge_base_omits_none :
  forall (scalars : Scalars) (transport : Transport) (self : Client.t)
         (request : CreateKnowledgeBaseRequest.t) (h : AsyncClient),
    state h <> CLOSED ->
    exists body,
      sent (snd (Client.create_knowledge_base transport self request h))
      = sent h ++ [{| method := POST;
                      url := Client.base_url self ++ "/api/knowledge";
                      json_body := Some (JObj body) |}] /\
      lookup "name" body = Some (JStr (CreateKnowledgeBaseRequest.name request)) /\
      (CreateKnowledgeBaseRequest.description request = None ->
         has_key "description" body = false /\ ~ In "description" (keys body)) /\
      (forall d, CreateKnowledgeBaseRequest.description request = Some d ->
         lookup "description" body = Some (JStr d)) /\
      (forall k v, In (k, v) body <->
         In (k, v) (CreateKnowledgeBaseRequest.model_dump false request) /\ v <> JNull).
Proof.
  intros scalars transport self request h Hopen.
  exists (CreateKnowledgeBaseRequest.model_dump true request).
  split; [apply (create_knowledge_base_sent scalars); exact Hopen |].
  split; [rewrite model_dump_exclude_none; reflexivity |].
  split; [| split].
  - intros Hd. rewrite model_dump_exclude_none, Hd. split; [reflexivity |].
    simpl. intros [Heq | []]. discriminate.
  - intros d Hd. rewrite model_dump_exclude_none, Hd. reflexivity.
  - intros k v. unfold CreateKnowledgeBaseRequest.model_dump.
    rewrite filter_In. simpl.
    destruct v; simpl; split; intros [Hin Hv]; split;
      solve [assumption | reflexivity | discriminate | congruence].
Qed.

Lemma create_knowledge_base_omits_none_witness :
  exists body,
    sent (snd (Client.create_knowledge_base (scalars := exact_scalars) (always ok_empty)
                 localhost docs_request AsyncClient_new))
    = sent AsyncClient_new
      ++ [{| method := POST;
             url := Client.base_url localhost ++ "/api/knowledge";
             json_body := Some (JObj body) |}] /\
    lookup "name" body = Some (JStr (CreateKnowledgeBaseRequest.name docs_request)) /\
    (CreateKnowledgeBaseRequest.description docs_request = None ->
       has_key "description" body = false /\ ~ In "description" (keys body)) /\
    (forall d, CreateKnowledgeBaseRequest.description docs_request = Some d ->
       lookup "description" body = Some (JStr d)) /\
    (forall k v, In (k, v) body <->
       In (k, v) (CreateKnowledgeBaseRequest.model_dump false docs_request) /\ v <> JNull).
Proof.
  apply (create_knowledge_base_omits_none exact_scalars (always ok_empty) localhost
           docs_request AsyncClient_new).
  discriminate.
Defined.

(** ** [run_stream_url] *)

(** C4. [run_stream_url(r)] is the stored base address followed by
    [/api/runs/], [r] and [/stream]; calling it returns that string and
    leaves the session as it was (nothing is sent, whatever the state of
    the session and whatever the transport would answer), so the result
    depends on the stored base address and [r] only. *)
Theorem run_stream_url_is_pure_composition :
  forall (scalars : Scalars) (transport : Transport)
         (self : Client.t) (run_id : string) (h : AsyncClient),
    Client.run_stream_url self run_id
    = (Client.base_url self ++ "/api/runs/" ++ run_id ++ "/stream")%string /\
    perform transport self (call_run_stream_url run_id) h
    = (inr (VUrl (Client.base_url self ++ "/api/runs/" ++ run_id ++ "/stream")), h) /\
    sent (snd (perform transport self (call_run_stream_url run_id) h)) = sent h /\
    Client.run_stream_url localhost "abc" = "http://localhost:3000/api/runs/abc/stream".
Proof.
  intros scalars transport self run_id h.
  repeat split.
Qed.

(** ** [search] with default arguments *)

(** C5. [search(kb_id, query)], with [limit] and [min_score] left to their
    defaults, sends to the search endpoint of the knowledge base a body
    made of the query, [limit] equal to 5 and [min_score] equal to 0.7. *)
Theorem search_defaults_sent :
  forall (scalars : Scalars) (transport : Transport) (self : Client.t)
         (kb_id query : string) (h : AsyncClient),
    state h <> CLOSED ->
    sent (snd (Client.search transport self kb_id query None None h))
    = sent h ++ [{| method := POST;
                    url := Client.base_url self ++ "/api/knowledge/" ++ kb_id ++ "/search";
                    json_body := Some (JObj [("query", JStr query);
                                             ("limit", JInt 5);
                                             ("min_score", JFloat 0.7)]) |}].
Proof.
  intros scalars transport self kb_id query h Hopen.
  apply (search_sent scalars transport self kb_id query None None h Hopen).
Qed.

Lemma search_defaults_sent_witness :
  sent (snd (Client.search (scalars := exact_scalars) (always ok_empty) localhost
               "kb1" "what is rust" None None AsyncClient_new))
  = sent AsyncClient_new
    ++ [{| method := POST;
           url := Client.base_url localhost ++ "/api/knowledge/" ++ "kb1" ++ "/search";
           json_body := Some (JObj [("query", JStr "what is rust");
                                    ("limit", JInt 5);
                                    ("min_score", JFloat 0.7)]) |}].
Proof.
  apply (search_defaults_sent exact_scalars (always ok_empty) localhost
           "kb1" "what is rust" AsyncClient_new).
  discriminate.
Defined.

(** ** The stored base address *)

Lemma rstrip_last_char : forall chars s a,
  last_char (rstrip chars s) = Some a -> mem_char a chars = false.
Proof.
  intros chars s. induction s as [| b rest IH]; intros a Hlast; simpl in Hlast.
  - discriminate.
  - destruct (rstrip chars rest) as [| c kept] eqn:Hrest.
    + destruct (mem_char b chars) eqn:Hb; simpl in Hlast.
      * discriminate.
      * injection Hlast as <-. exact Hb.
    + apply IH. exact Hlast.
Qed.

Lemma rstrip_no_trailing_slash : forall s, ends_with_slash (rstrip "/" s) = false.
Proof.
  intros s. unfold ends_with_slash.
  destruct (last_char (rstrip "/" s)) as [a |] eqn:Hlast; [| reflexivity].
  apply rstrip_last_char in Hlast. simpl in Hlast.
  rewrite orb_false_r in Hlast. exact Hlast.
Qed.

Lemma rstrip_slashes : forall s,
  exists n, s = (rstrip "/" s ++ repeat_char "/" n)%string.
Proof.
  induction s as [| a rest [n IH]]; simpl.
  - exists 0. reflexivity.
  - destruct (rstrip "/" rest) as [| c kept] eqn:Hrest.
    + simpl in IH. destruct (Ascii.eqb a "/") eqn:Ha; simpl.
      * apply Ascii.eqb_eq in Ha. subst a. exists (S n). simpl. congruence.
      * exists n. simpl. congruence.
    + exists n. simpl. simpl in IH. congruence.
Qed.

(** ** What a call does to the session *)

Lemma state_closed_dec : forall h, {state h = CLOSED} + {state h <> CLOSED}.
Proof. intros h. destruct (state h); [right | right | left]; congruence. Qed.

Lemma aclose_step : forall base h, session_step base h (snd (aclose h)).
Proof.
  intros base h. unfold aclose.
  destruct (state h) eqn:Hst; simpl;
    first [apply step_none | apply step_close; congruence].
Qed.

Lemma aclose_closes : forall h, state (snd (aclose h)) = CLOSED.
Proof. intros h. unfold aclose. destruct (state h) eqn:Hst; simpl; congruence. Qed.

Lemma aclose_returns : forall h, fst (aclose h) = inr tt.
Proof. intros h. unfold aclose. destruct (state h); reflexivity. Qed.

Section Steps.

Context {scalars : Scalars}.
Variable transport : Transport.
Variable self : Client.t.

Lemma perform_step : forall c h,
  session_step (Client.base_url self) h (snd (perform transport self c h)).
Proof.
  intros c h. destruct (is_network c) eqn:Hnet.
  - destruct (perform_checked transport self c Hnet) as (req & tail & Hpre & Hq & Hrun).
    rewrite Hrun. destruct (state_closed_dec h) as [Hc | Hopen].
    + rewrite checked_closed by exact Hc. apply step_none.
    + destruct (checked_not_closed _ transport req tail h Hq Hopen) as [Hs _].
      rewrite Hs. apply step_send; assumption.
  - destruct c; simpl in Hnet; try discriminate.
    + apply step_none.
    + unfold perform, fmap, bind, Client.close.
      pose proof (aclose_step (Client.base_url self) h) as Hstep.
      destruct (aclose h) as [[e | u] h']; exact Hstep.
Qed.

Lemma perform_close_closes : forall h,
  state (snd (perform transport self call_close h)) = CLOSED.
Proof.
  intros h. unfold perform, fmap, bind, Client.close.
  pose proof (aclose_closes h) as Hc.
  destruct (aclose h) as [[e | u] h']; exact Hc.
Qed.

End Steps.

(** C7. [Client(base)] stores [base] without its trailing slashes: the
    stored address is [base.rstrip("/")], it does not end in [/], and
    [base] is the stored address followed by slashes only. Every request a
    call sends has a URL that begins with the stored address, and so does
    every result of [run_stream_url]. *)
Theorem base_url_stored_without_trailing_slash :
  forall (scalars : Scalars) (transport : Transport) (base : string),
    Client.base_url (fst (Client.__init__ base)) = rstrip "/" base /\
    ends_with_slash (Client.base_url (fst (Client.__init__ base))) = false /\
    (exists n, base
               = (Client.base_url (fst (Client.__init__ base)) ++ repeat_char "/" n)%string) /\
    (forall c h req,
        In req (sent (snd (perform transport (fst (Client.__init__ base)) c h))) ->
        In req (sent h) \/
        String.prefix (Client.base_url (fst (Client.__init__ base))) (url req) = true) /\
    (forall run_id,
        String.prefix (Client.base_url (fst (Client.__init__ base)))
          (Client.run_stream_url (fst (Client.__init__ base)) run_id) = true).
Proof.
  intros scalars transport base. simpl.
  split; [reflexivity |].
  split; [apply rstrip_no_trailing_slash |].
  split; [apply rstrip_slashes |].
  split.
  - intros c h req Hin.
    pose proof (perform_step transport (fst (Client.__init__ base)) c h) as Hstep.
    simpl in Hstep.
    destruct Hstep as [| req0 Hopen Hpre | Hopen]; simpl in Hin.
    + left; exact Hin.
    + apply in_app_or in Hin. destruct Hin as [Hin | [Hin | []]].
      * left; exact Hin.
      * right. subst req0. exact Hpre.
    + left; exact Hin.
  - intros run_id. apply prefix_append.
Qed.

Lemma base_url_stored_without_trailing_slash_witness :
  Client.base_url (fst (Client.__init__ "http://localhost:3000//")) = "http://localhost:3000" /\
  (In {| method := POST;
         url := "http://localhost:3000/api/runs";
         json_body := Some (JObj [("input", JStr "go"); ("context", JNull)]) |}
      (sent AsyncClient_new) \/
   String.prefix (Client.base_url (fst (Client.__init__ "http://localhost:3000//")))
     "http://localhost:3000/api/runs" = true).
Proof.
  split; [reflexivity |].
  apply (proj1 (proj2 (proj2 (proj2
           (base_url_stored_without_trailing_slash exact_scalars (always created)
              "http://localhost:3000//"))))
           (call_create_run "go" None) AsyncClient_new
           {| method := POST;
              url := "http://localhost:3000/api/runs";
              json_body := Some (JObj [("input", JStr "go"); ("context", JNull)]) |}).
  simpl. left. reflexivity.
Defined.

(** ** Lifecycle of the session *)

Lemma released_once_new : released_once AsyncClient_new.
Proof. reflexivity. Qed.

Lemma step_released_once : forall base h h',
  session_step base h h' -> released_once h -> released_once h'.
Proof.
  intros base h h' Hstep Hinv. unfold released_once in *.
  destruct Hstep as [| req Hopen _ | Hopen]; simpl.
  - exact Hinv.
  - destruct (state h); congruence.
  - destruct (state h); congruence.
Qed.

Lemma step_stays_closed : forall base h h',
  session_step base h h' -> state h = CLOSED -> state h' = CLOSED.
Proof.
  intros base h h' Hstep Hc.
  destruct Hstep as [| req Hopen _ | Hopen]; simpl; congruence.
Qed.

Section Lifetime.

Context {scalars : Scalars}.
Variable transport : Transport.
Variable self : Client.t.

Lemma session_after_released_once : forall calls h,
  released_once h -> released_once (session_after transport self calls h).
Proof.
  induction calls as [| c rest IH]; intros h Hinv; simpl.
  - exact Hinv.
  - apply IH. eapply step_released_once; [apply perform_step | exact Hinv].
Qed.

Lemma session_after_stays_closed : forall calls h,
  state h = CLOSED -> state (session_after transport self calls h) = CLOSED.
Proof.
  induction calls as [| c rest IH]; intros h Hc; simpl.
  - exact Hc.
  - apply IH. eapply step_stays_closed; [apply perform_step | exact Hc].
Qed.

Lemma run_block_released_once : forall calls h,
  released_once h -> released_once (snd (run_block transport self calls h)).
Proof.
  induction calls as [| c rest IH]; intros h Hinv; simpl.
  - exact Hinv.
  - unfold bind.
    pose proof (perform_step transport self c h) as Hstep.
    destruct (perform transport self c h) as [[e | v] h']; simpl in *.
    + eapply step_released_once; eassumption.
    + apply IH. eapply step_released_once; eassumption.
Qed.

End Lifetime.

(** C9. The connection is released exactly once, by either way of closing
    the client.  Explicit close: in any sequence of calls on a new client
    that contains a [close], whatever the calls before and after it did
    (returned or raised, [close] again included), the session ends closed
    with its transport released once.  Scope exit: [async with] over any
    block of calls, whether the block ran to its end or stopped at a call
    that raised, ends with the session closed and its transport released
    once, and hands the outcome of the block on to the caller.  At no point
    has the transport been released more than once. *)
Theorem connection_released_exactly_once :
  forall (scalars : Scalars) (transport : Transport) (base : string),
    (forall before after,
        state (session_after transport (fst (Client.__init__ base))
                 (before ++ call_close :: after) AsyncClient_new) = CLOSED /\
        releases (session_after transport (fst (Client.__init__ base))
                    (before ++ call_close :: after) AsyncClient_new) = 1) /\
    (forall calls,
        state (snd (async_with base (fun client => run_block transport client calls)))
        = CLOSED /\
        releases (snd (async_with base (fun client => run_block transport client calls)))
        = 1 /\
        fst (async_with base (fun client => run_block transport client calls))
        = fst (run_block transport (fst (Client.__init__ base)) calls AsyncClient_new)) /\
    (forall calls,
        releases (session_after transport (fst (Client.__init__ base)) calls AsyncClient_new)
        <= 1).
Proof.
  intros scalars transport base. split; [| split].
  - intros before after.
    set (self := fst (Client.__init__ base)).
    assert (Hc : state (session_after transport self (before ++ call_close :: after)
                          AsyncClient_new) = CLOSED).
    { unfold session_after. rewrite fold_left_app. simpl.
      apply (session_after_stays_closed transport self).
      apply (perform_close_closes transport self). }
    split; [exact Hc |].
    pose proof (session_after_released_once transport self
                  (before ++ call_close :: after) AsyncClient_new released_once_new) as Hinv.
    unfold released_once in Hinv. rewrite Hc in Hinv. exact Hinv.
  - intros calls. unfold async_with. simpl.
    set (self := {| Client.base_url := rstrip "/" base |}).
    pose proof (run_block_released_once transport self calls AsyncClient_new
                  released_once_new) as Hinv.
    destruct (run_block transport self calls AsyncClient_new) as [outcome h1].
    simpl in Hinv. unfold Client.__aexit__.
    pose proof (aclose_closes h1) as Hc.
    pose proof (aclose_returns h1) as Hr.
    pose proof (step_released_once _ _ _ (aclose_step "" h1) Hinv) as Hinv2.
    destruct (aclose h1) as [[e | u] h2]; simpl in *; [discriminate |].
    unfold released_once in Hinv2. rewrite Hc in Hinv2. repeat split; assumption.
  - intros calls.
    pose proof (session_after_released_once transport (fst (Client.__init__ base))
                  calls AsyncClient_new released_once_new) as Hinv.
    unfold released_once in Hinv. rewrite Hinv.
    destruct (state _); lia.
Qed.

(** ** Validation of responses *)

(** What a single-record method returns on a successful response whose
    body decodes to [j]: the validated record, or [ValidationError]. *)
Lemma checked_validate : forall A (transport : Transport) req (v : validator A) h res j,
  state h <> CLOSED ->
  transport (sent h) req = Some res ->
  is_success res = true ->
  json res = Some j ->
  fst (checked transport req (fun res => (j <- json_of res ;; validate v j)%M) h)
  = match v j with Some a => inr a | None => inl ValidationError end.
Proof.
  intros A transport req v h res j Hopen Hres Hok Hj.
  assert (Hq : forall res, quiet (j <- json_of res ;; validate v j)%M)
    by (intros res0; auto with quiet).
  destruct (checked_not_closed _ transport req _ h Hq Hopen) as [_ Hr].
  rewrite Hres, Hok in Hr. rewrite Hr.
  unfold bind, json_of. rewrite Hj. simpl. unfold validate.
  destruct (v j); reflexivity.
Qed.

(** What a list method returns on a successful response whose body decodes
    to [j]: it iterates [j] and validates what the iteration yields. *)
Lemma checked_validate_each : forall A (transport : Transport) req (v : validator A) h res j,
  state h <> CLOSED ->
  transport (sent h) req = Some res ->
  is_success res = true ->
  json res = Some j ->
  fst (checked transport req
         (fun res => (j <- json_of res ;; items <- iterate j ;; validate_each v items)%M) h)
  = fst ((items <- iterate j ;; validate_each v items)%M (after_send h req)).
Proof.
  intros A transport req v h res j Hopen Hres Hok Hj.
  assert (Hq : forall res,
             quiet (j <- json_of res ;; items <- iterate j ;; validate_each v items)%M)
    by (intros res0; auto 10 with quiet).
  destruct (checked_not_closed _ transport req _ h Hq Hopen) as [_ Hr].
  rewrite Hres, Hok in Hr. rewrite Hr.
  unfold bind at 1. unfold json_of. rewrite Hj. reflexivity.
Qed.

(** Validating the items one by one agrees with validating the list. *)
Lemma validate_each_all : forall A (v : validator A) items h,
  validate_each v items h
  = (match validate_all v items with
     | Some xs => inr xs
     | None => inl ValidationError
     end, h).
Proof.
  intros A v items h. induction items as [| j rest IH]; simpl.
  - reflexivity.
  - unfold bind, validate. destruct (v j) as [a |]; simpl; [| reflexivity].
    rewrite IH. destruct (validate_all v rest); reflexivity.
Qed.

(** ** Defaults of [KnowledgeBase] *)

Lemma required_str_inv : forall k o s,
  required str_validator k o = Some s -> lookup k o = Some (JStr s).
Proof.
  intros k o s. unfold required.
  destruct (lookup k o) as [[] |]; simpl; congruence.
Qed.

Lemma with_default_total : forall A (v : validator A) d k o,
  absent_or_valid v k o ->
  exists a, with_default v d k o = Some a /\ (lookup k o = None -> a = d).
Proof.
  intros A v d k o Hok. unfold absent_or_valid in Hok. unfold with_default.
  destruct (lookup k o) as [j |].
  - destruct (v j) as [a |]; [| congruence].
    exists a. split; [reflexivity | discriminate].
  - exists d. split; reflexivity.
Qed.

(** A config object validates as soon as the keys it does have hold
    acceptable values, and each key it leaves out takes its default. *)
Lemma config_validates : forall (scalars : Scalars) co,
  absent_or_valid str_validator "embedding_provider" co ->
  absent_or_valid str_validator "embedding_model" co ->
  absent_or_valid (nullable int_validator) "vector_dimensions" co ->
  absent_or_valid str_validator "file_processor" co ->
  absent_or_valid str_validator "chunk_strategy" co ->
  exists cfg,
    KnowledgeBaseConfig.model_validate (JObj co) = Some cfg /\
    (lookup "embedding_provider" co = None ->
       KnowledgeBaseConfig.embedding_provider cfg = "") /\
    (lookup "embedding_model" co = None ->
       KnowledgeBaseConfig.embedding_model cfg = "") /\
    (lookup "vector_dimensions" co = None ->
       KnowledgeBaseConfig.vector_dimensions cfg = None) /\
    (lookup "file_processor" co = None ->
       KnowledgeBaseConfig.file_processor cfg = "") /\
    (lookup "chunk_strategy" co = None ->
       KnowledgeBaseConfig.chunk_strategy cfg = "").
Proof.
  intros scalars co H1 H2 H3 H4 H5.
  destruct (with_default_total _ _ "" _ _ H1) as (ep & E1 & D1).
  destruct (with_default_total _ _ "" _ _ H2) as (em & E2 & D2).
  destruct (with_default_total _ _ None _ _ H3) as (vd & E3 & D3).
  destruct (with_default_total _ _ "" _ _ H4) as (fp & E4 & D4).
  destruct (with_default_total _ _ "" _ _ H5) as (cs & E5 & D5).
  exists (KnowledgeBaseConfig.mk ep em vd fp cs).
  unfold KnowledgeBaseConfig.model_validate.
  rewrite E1, E2, E3, E4, E5. simpl. repeat split; assumption.
Qed.




Lemma required_str_present : forall k o s,
  lookup k o = Some (JStr s) -> required str_validator k o = Some s.
Proof. intros k o s Hl. unfold required. rewrite Hl. reflexivity. Qed.



(** ** List methods and payloads that are not arrays *)

(** C6 (the code at the failing inputs). On a successful response whose
    payload is the empty object, which is no array of records, the three
    list methods raise nothing and return the empty list; so does
    [get_messages] on the empty string; on a payload that is a number or
    [null] they raise [TypeError], which is no validation error. *)
Theorem list_methods_accept_non_array_payloads :
  list_validator Message.model_validate (JObj []) = None /\
  fst (Client.get_messages (always (ok_json (JObj []))) localhost "s1" AsyncClient_new)
  = inr [] /\
  fst (Client.list_knowledge_bases (scalars := exact_scalars)
         (always (ok_json (JObj []))) localhost AsyncClient_new)
  = inr [] /\
  fst (Client.list_documents (scalars := exact_scalars)
         (always (ok_json (JObj []))) localhost "kb1" AsyncClient_new)
  = inr [] /\
  fst (Client.get_messages (always (ok_json (JStr ""))) localhost "s1" AsyncClient_new)
  = inr [] /\
  fst (Client.get_messages (always (ok_json (JInt 5))) localhost "s1" AsyncClient_new)
  = inl TypeError /\
  fst (Client.get_messages (always (ok_json JNull)) localhost "s1" AsyncClient_new)
  = inl TypeError.
Proof. repeat split. Qed.

(** ** What the methods return on a successful response *)

Lemma fst_fmap : forall A B (f : A -> B) (m : M A) h,
  fst (fmap f m h) = match fst (m h) with inr a => inr (f a) | inl e => inl e end.
Proof.
  intros A B f m h. unfold fmap, bind. destruct (m h) as [[e | a] h']; reflexivity.
Qed.

Lemma record_method_result : forall A (transport : Transport) req (v : validator A) h res j,
  state h <> CLOSED ->
  transport (sent h) req = Some res ->
  is_success res = true ->
  json res = Some j ->
  fst ((res <- send transport req ;; Client._check_response res ;;
        j <- json_of res ;; validate v j)%M h)
  = match v j with Some a => inr a | None => inl ValidationError end.
Proof. exact checked_validate. Qed.

Lemma list_method_result : forall A (transport : Transport) req (v : validator A) h res items,
  state h <> CLOSED ->
  transport (sent h) req = Some res ->
  is_success res = true ->
  json res = Some (JArr items) ->
  fst ((res <- send transport req ;; Client._check_response res ;;
        j <- json_of res ;; items <- iterate j ;; validate_each v items)%M h)
  = match validate_all v items with Some xs => inr xs | None => inl ValidationError end.
Proof.
  intros A transport req v h res items Hopen Hres Hok Hj.
  change (fst (checked transport req
                 (fun res => (j <- json_of res ;; items <- iterate j ;;
                              validate_each v items)%M) h)
          = match validate_all v items with
            | Some xs => inr xs
            | None => inl ValidationError
            end).
  rewrite (checked_validate_each _ transport req v h res (JArr items) Hopen Hres Hok Hj).
  unfold bind, iterate, ret. rewrite validate_each_all. reflexivity.
Qed.

(** X1. Every data-returning method, on a successful response whose body
    decodes to [j] (an array, for the list methods), returns the typed
    value its validator gives for [j], and raises [ValidationError] where
    the validator rejects [j]. *)
Theorem successful_payload_is_validated :
  forall (scalars : Scalars) (transport : Transport) (self : Client.t) (c : Call)
         (h : AsyncClient) (res : Response) (j : JSON) (v : validator Value),
    state h <> CLOSED ->
    (forall req, transport (sent h) req = Some res) ->
    is_success res = true ->
    json res = Some j ->
    payload_validator c = Some v ->
    (is_list_call c = true -> exists items, j = JArr items) ->
    fst (perform transport self c h)
    = match v j with Some value => inr value | None => inl ValidationError end.
Proof.
  intros scalars transport self c h res j v Hopen Hres Hok Hj Hv Hlist.
  destruct c; simpl in Hv; try discriminate; injection Hv as <-;
    simpl in Hlist; unfold perform; rewrite fst_fmap;
    unfold_methods;
    first
      [ destruct (Hlist eq_refl) as [items ->];
        rewrite (list_method_result _ transport _ _ h res items
                   Hopen (Hres _) Hok Hj);
        simpl; destruct (validate_all _ items); reflexivity
      | rewrite (record_method_result _ transport _ _ h res j Hopen (Hres _) Hok Hj);
        match goal with |- context [option_map _ (?m j)] => destruct (m j) end;
        reflexivity ].
Qed.

Lemma successful_payload_is_validated_witness :
  fst (perform (scalars := exact_scalars) (always (ok_json (JArr [JObj []])))
         localhost (call_get_messages "s1") AsyncClient_new)
  = inl ValidationError.
Proof.
  assert (Hopen : state AsyncClient_new <> CLOSED) by discriminate.
  assert (Hlist : is_list_call (call_get_messages "s1") = true ->
                  exists items, JArr [JObj []] = JArr items)
    by (intros _; exists [JObj []]; reflexivity).
  exact (successful_payload_is_validated exact_scalars
           (always (ok_json (JArr [JObj []]))) localhost (call_get_messages "s1")
           AsyncClient_new (ok_json (JArr [JObj []])) (JArr [JObj []])
           (fun j => option_map VMessages (list_validator Message.model_validate j))
           Hopen (fun _ => eq_refl) eq_refl eq_refl eq_refl Hlist).
Defined.

(** ** Entities: assignment and comparison *)











(** * Further properties of the client *)

(** ** A call on an open session, summarised *)

Section Summary.

Context {scalars : Scalars}.
Variable transport : Transport.
Variable self : Client.t.

Lemma request_of_network : forall c,
  is_network c = true <-> exists req, request_of self c = Some req.
Proof.
  intros c; split.
  - intros Hnet; destruct c; simpl in Hnet; try discriminate; eexists; reflexivity.
  - intros [req Hreq]; destruct c; simpl in Hreq; try discriminate; reflexivity.
Qed.

Lemma Some_inj : forall A (a b : A), Some a = Some b -> a = b.
Proof. intros A a b Heq. congruence. Qed.

Ltac run_open Hopen :=
  unfold perform, fmap; unfold_methods; unfold bind;
  rewrite send_not_closed by exact Hopen;
  match goal with
  | |- context [transport ?past ?req] => destruct (transport past req) as [? |]
  end; [| reflexivity];
  unfold Client._check_response;
  match goal with
  | |- context [is_success ?r] =>
      destruct (is_success r); [| reflexivity];
      simpl; unfold outcome_of, decode_record, decode_list, json_of;
      destruct (json r) as [? |]; [| reflexivity]
  end; simpl.

Ltac finish_record :=
  unfold validate;
  match goal with
  | |- context [match ?x with Some _ => _ | None => _ end] => destruct x
  end; reflexivity.

Ltac finish_list :=
  match goal with
  | |- context [iterate ?j] => destruct j
  end; simpl; try reflexivity;
  rewrite validate_each_all;
  match goal with
  | |- context [validate_all ?v ?l] => destruct (validate_all v l)
  end; reflexivity.

(** On a session that is not closed a network method sends its request
    and its outcome is read off the transport's answer. *)
Lemma perform_open : forall c req h,
  request_of self c = Some req ->
  state h <> CLOSED ->
  perform transport self c h
  = (match transport (sent h) req with
     | None => inl TransportError
     | Some res =>
         if is_success res
         then outcome_of c res
         else inl (ApiError (status_code res) (text res))
     end, after_send h req).
Proof.
  intros c req h Hreq Hopen.
  destruct c; cbv beta iota zeta delta [request_of] in Hreq; try discriminate;
    apply Some_inj in Hreq; subst req; run_open Hopen;
    first [reflexivity | finish_list | finish_record].
Qed.

Lemma perform_closed : forall c h,
  is_network c = true ->
  state h = CLOSED ->
  perform transport self c h = (inl RuntimeError, h).
Proof.
  intros c h Hnet Hc.
  destruct c; simpl in Hnet; try discriminate;
    unfold perform, fmap; unfold_methods; unfold bind;
    rewrite send_closed by exact Hc; reflexivity.
Qed.

End Summary.

(** ** Strings, once more *)

Lemma append_assoc : forall a b c : string, ((a ++ b) ++ c)%string = (a ++ (b ++ c))%string.
Proof. induction a as [| x a IH]; intros b c; simpl; [reflexivity | rewrite IH; reflexivity]. Qed.

Lemma rstrip_only_slashes_empty : forall n, rstrip "/" (repeat_char "/" n) = "".
Proof. induction n as [| n IH]; simpl; [reflexivity | rewrite IH; reflexivity]. Qed.

Lemma rstrip_append_slashes : forall s n,
  rstrip "/" (s ++ repeat_char "/" n) = rstrip "/" s.
Proof.
  induction s as [| a rest IH]; intros n.
  - simpl. apply rstrip_only_slashes_empty.
  - simpl. rewrite IH. reflexivity.
Qed.

Lemma rstrip_idempotent : forall s, rstrip "/" (rstrip "/" s) = rstrip "/" s.
Proof.
  intros s. destruct (rstrip_slashes (rstrip "/" s)) as [n Hn].
  destruct (rstrip_slashes s) as [m Hm].
  rewrite Hm at 2. rewrite rstrip_append_slashes. reflexivity.
Qed.

Lemma prefix_append_both : forall a b c : string,
  String.prefix (a ++ b) (a ++ c) = String.prefix b c.
Proof.
  induction a as [| x a IH]; intros b c; simpl.
  - reflexivity.
  - destruct (Ascii.ascii_dec x x) as [_ | Hne]; [apply IH | congruence].
Qed.

(** ** The request of every method *)

Lemma perform_sent : forall (scalars : Scalars) (transport : Transport)
    (self : Client.t) (c : Call) (h : AsyncClient),
  sent (snd (perform transport self c h))
  = match request_of self c with
    | Some req => if is_closed h then sent h else sent h ++ [req]
    | None => sent h
    end.
Proof.
  intros scalars transport self c h.
  destruct (request_of self c) as [req |] eqn:Hreq.
  - assert (Hnet : is_network c = true)
      by (apply (request_of_network self); exists req; exact Hreq).
    unfold is_closed. destruct (state_closed_dec h) as [Hc | Hopen].
    + rewrite (perform_closed transport self c h Hnet Hc), Hc. reflexivity.
    + rewrite (perform_open transport self c req h Hreq Hopen). simpl.
      destruct (state h); [reflexivity | reflexivity | congruence].
  - destruct c; simpl in Hreq; try discriminate.
    + reflexivity.
    + unfold perform, fmap, bind, Client.close, aclose.
      destruct (state h); reflexivity.
Qed.

(** X2. A call sends at most one request and never tries again: after a
    call the requests sent are those sent before, possibly followed by
    one more, and that one is the request the method hands to the session
    (method, URL string and [json=] value as tabulated in [request_of]),
    whether the transport failed, the status was an error or the body was
    rejected.  [run_stream_url] and [close] send nothing, and nothing is
    sent through a closed session.  A request has a [json=] value exactly
    when it is a POST. *)
Theorem every_call_sends_at_most_its_request :
  forall (scalars : Scalars) (transport : Transport) (self : Client.t)
         (c : Call) (h : AsyncClient),
    (sent (snd (perform transport self c h)) = sent h \/
     exists req,
       request_of self c = Some req /\ state h <> CLOSED /\
       sent (snd (perform transport self c h)) = sent h ++ [req]) /\
    (is_network c = false -> sent (snd (perform transport self c h)) = sent h) /\
    (state h = CLOSED -> sent (snd (perform transport self c h)) = sent h) /\
    (forall req, request_of self c = Some req ->
       (method req = POST <-> json_body req <> None)).
Proof.
  intros scalars transport self c h.
  pose proof (perform_sent scalars transport self c h) as Hsent.
  split; [| split; [| split]].
  - destruct (request_of self c) as [req |] eqn:Hreq; [| left; exact Hsent].
    unfold is_closed in Hsent. destruct (state_closed_dec h) as [Hc | Hopen].
    + left. rewrite Hc in Hsent. exact Hsent.
    + right. exists req. split; [reflexivity | split; [exact Hopen |]].
      destruct (state h); [exact Hsent | exact Hsent | congruence].
  - intros Hnet. destruct (request_of self c) as [req |] eqn:Hreq; [| exact Hsent].
    assert (Hn : is_network c = true)
      by (apply (request_of_network self); exists req; exact Hreq).
    congruence.
  - intros Hc. unfold is_closed in Hsent. rewrite Hc in Hsent.
    destruct (request_of self c); exact Hsent.
  - intros req Hreq.
    destruct c; cbv beta iota zeta delta [request_of] in Hreq; try discriminate;
      apply Some_inj in Hreq; subst req; cbn [url method json_body];
      split; intros H; congruence.
Qed.

(** ** Failures that are not API errors *)

(** X3. When the transport fails (connection refused, DNS, timeout), a
    network method raises that failure as it is: it is not turned into an
    [ApiError], nothing is retried (the one request stays the only one
    sent) and the session stays usable. *)
Theorem transport_failure_propagates :
  forall (scalars : Scalars) (transport : Transport) (self : Client.t)
         (c : Call) (req : Request) (h : AsyncClient),
    request_of self c = Some req ->
    state h <> CLOSED ->
    transport (sent h) req = None ->
    fst (perform transport self c h) = inl TransportError /\
    sent (snd (perform transport self c h)) = sent h ++ [req] /\
    state (snd (perform transport self c h)) = OPENED /\
    releases (snd (perform transport self c h)) = releases h.
Proof.
  intros scalars transport self c req h Hreq Hopen Hfail.
  rewrite (perform_open transport self c req h Hreq Hopen), Hfail.
  repeat split.
Qed.

Lemma transport_failure_propagates_witness :
  fst (perform (scalars := exact_scalars) refused localhost
         (call_ingest "some text" None) AsyncClient_new)
  = inl TransportError.
Proof.
  assert (Hopen : state AsyncClient_new <> CLOSED) by discriminate.
  exact (proj1 (transport_failure_propagates exact_scalars refused localhost
                  (call_ingest "some text" None) _ AsyncClient_new
                  eq_refl Hopen eq_refl)).
Defined.

(** X4. [delete_knowledge_base] never reads the body: it returns [None] on
    every successful response, whatever the body holds.  Every other
    network method reads it, so when [res.json()] raises on a successful
    response the method returns no value: it raises that error, which is
    neither an [ApiError] nor a [ValidationError]. *)
Theorem body_is_decoded_except_by_delete :
  forall (scalars : Scalars) (transport : Transport) (self : Client.t)
         (c : Call) (req : Request) (h : AsyncClient) (res : Response),
    request_of self c = Some req ->
    state h <> CLOSED ->
    transport (sent h) req = Some res ->
    is_success res = true ->
    match c with
    | call_delete_knowledge_base _ => fst (perform transport self c h) = inr VNone
    | _ =>
        json res = None ->
        exists e, fst (perform transport self c h) = inl e /\
                  is_api_error e = false /\ e <> ValidationError
    end.
Proof.
  intros scalars transport self c req h res Hreq Hopen Hres Hok.
  rewrite (perform_open transport self c req h Hreq Hopen), Hres, Hok.
  destruct c; simpl in Hreq; try discriminate; try reflexivity;
    intros Hj; exists JSONDecodeError;
    (split; [simpl; unfold decode_record, decode_list; rewrite Hj; reflexivity
            | split; [reflexivity | discriminate]]).
Qed.

Lemma body_is_decoded_except_by_delete_witness :
  fst (perform (scalars := exact_scalars) (always no_content) localhost
         (call_delete_knowledge_base "kb1") AsyncClient_new)
  = inr VNone /\
  exists e,
    fst (perform (scalars := exact_scalars) (always no_content) localhost
           (call_get_knowledge_base "kb1") AsyncClient_new) = inl e /\
    is_api_error e = false /\ e <> ValidationError.
Proof.
  assert (Hopen : state AsyncClient_new <> CLOSED) by discriminate.
  split.
  - exact (body_is_decoded_except_by_delete exact_scalars (always no_content) localhost
             (call_delete_knowledge_base "kb1") _ AsyncClient_new no_content
             eq_refl Hopen eq_refl eq_refl).
  - exact (body_is_decoded_except_by_delete exact_scalars (always no_content) localhost
             (call_get_knowledge_base "kb1") _ AsyncClient_new no_content
             eq_refl Hopen eq_refl eq_refl eq_refl).
Defined.

(** ** A client that was closed *)

(** X5. Once [close] has been called, or the [async with] block has been
    left, no network method gets through: whatever happened before and
    after the closing, the call returns no value (it raises, and what it
    raises is no [ApiError]), nothing is sent and the session is left as
    it was; [run_stream_url] still answers. *)
Theorem closed_client_refuses_requests :
  forall (scalars : Scalars) (transport : Transport) (base : string)
         (before after block : list Call) (c : Call),
    is_network c = true ->
    (exists e,
        perform transport (fst (Client.__init__ base)) c
          (session_after transport (fst (Client.__init__ base))
             (before ++ call_close :: after) AsyncClient_new)
        = (inl e,
           session_after transport (fst (Client.__init__ base))
             (before ++ call_close :: after) AsyncClient_new) /\
        is_api_error e = false) /\
    (exists e,
        perform transport (fst (Client.__init__ base)) c
          (snd (async_with base (fun client => run_block transport client block)))
        = (inl e,
           snd (async_with base (fun client => run_block transport client block))) /\
        is_api_error e = false) /\
    (forall run_id,
        fst (perform transport (fst (Client.__init__ base)) (call_run_stream_url run_id)
               (session_after transport (fst (Client.__init__ base))
                  (before ++ call_close :: after) AsyncClient_new))
        = inr (VUrl (Client.run_stream_url (fst (Client.__init__ base)) run_id))).
Proof.
  intros scalars transport base before after block c Hnet.
  split; [| split].
  - exists RuntimeError. split; [| reflexivity].
    apply perform_closed; [exact Hnet |].
    unfold session_after. rewrite fold_left_app. simpl.
    apply (session_after_stays_closed transport (fst (Client.__init__ base))).
    apply (perform_close_closes transport (fst (Client.__init__ base))).
  - exists RuntimeError. split; [| reflexivity].
    apply perform_closed; [exact Hnet |].
    unfold async_with. simpl.
    destruct (run_block transport {| Client.base_url := rstrip "/" base |} block
                AsyncClient_new) as [outcome h1].
    unfold Client.__aexit__.
    pose proof (aclose_closes h1) as Hc. pose proof (aclose_returns h1) as Hr.
    destruct (aclose h1) as [[e | u] h2]; simpl in *; [discriminate | exact Hc].
  - intros run_id. reflexivity.
Qed.

Lemma closed_client_refuses_requests_witness :
  exists e,
    perform (scalars := exact_scalars) (always ok_empty)
      (fst (Client.__init__ "http://localhost:3000")) (call_chat "hi" None)
      (session_after (scalars := exact_scalars) (always ok_empty)
         (fst (Client.__init__ "http://localhost:3000"))
         ([] ++ call_close :: []) AsyncClient_new)
    = (inl e,
       session_after (scalars := exact_scalars) (always ok_empty)
         (fst (Client.__init__ "http://localhost:3000"))
         ([] ++ call_close :: []) AsyncClient_new) /\
    is_api_error e = false.
Proof.
  exact (proj1 (closed_client_refuses_requests exact_scalars (always ok_empty)
                  "http://localhost:3000" [] [] [] (call_chat "hi" None) eq_refl)).
Defined.

(** ** Base addresses that differ in trailing slashes *)

(** X6. Trailing slashes of the base address make no difference: a client
    made from [base] followed by any number of slashes is the client made
    from [base], so both send the same requests and return the same
    stream URLs; stripping is idempotent, so a client made from a stored
    base address stores it unchanged. *)
Theorem trailing_slashes_make_no_difference :
  forall (base : string) (n : nat),
    Client.__init__ (base ++ repeat_char "/" n) = Client.__init__ base /\
    Client.__init__ (Client.base_url (fst (Client.__init__ base)))
    = Client.__init__ base /\
    (forall c,
        request_of (fst (Client.__init__ (base ++ repeat_char "/" n))) c
        = request_of (fst (Client.__init__ base)) c) /\
    (forall run_id,
        Client.run_stream_url (fst (Client.__init__ (base ++ repeat_char "/" n))) run_id
        = Client.run_stream_url (fst (Client.__init__ base)) run_id).
Proof.
  intros base n.
  assert (H1 : Client.__init__ (base ++ repeat_char "/" n) = Client.__init__ base).
  { unfold Client.__init__. rewrite rstrip_append_slashes. reflexivity. }
  split; [exact H1 |]. split.
  - unfold Client.__init__. simpl. rewrite rstrip_idempotent. reflexivity.
  - split; intros; rewrite H1; reflexivity.
Qed.

(** ** Identifiers in paths *)

(** X7. Identifiers are put into the path as they are, without escaping,
    so an identifier that contains a slash reaches another endpoint:
    [get_knowledge_base(kb_id + "/documents")] sends exactly the request
    that [list_documents(kb_id)] sends, and [delete_knowledge_base] with
    such an identifier sends its DELETE to the documents URL. *)
Theorem path_identifiers_are_not_escaped :
  forall (scalars : Scalars) (transport : Transport) (self : Client.t)
         (kb_id : string) (h : AsyncClient),
    sent (snd (perform transport self (call_get_knowledge_base (kb_id ++ "/documents")) h))
    = sent (snd (perform transport self (call_list_documents kb_id) h)) /\
    (forall req1 req2,
        request_of self (call_delete_knowledge_base (kb_id ++ "/documents")) = Some req1 ->
        request_of self (call_list_documents kb_id) = Some req2 ->
        method req1 = DELETE /\ url req1 = url req2).
Proof.
  intros scalars transport self kb_id h. split.
  - rewrite !perform_sent. reflexivity.
  - intros req1 req2 H1 H2.
    apply Some_inj in H1. apply Some_inj in H2. subst req1 req2. split; reflexivity.
Qed.

(** ** Arguments can be read back from the body *)

Lemma of_optional_JStr_inj : forall a b : option string,
  of_optional JStr a = of_optional JStr b -> a = b.
Proof. intros [a |] [b |] Heq; simpl in Heq; congruence. Qed.

Lemma of_optional_JObj_none : forall a b : option dict,
  of_optional JObj a = of_optional JObj b -> (a = None <-> b = None).
Proof. intros [a |] [b |] Heq; simpl in Heq; split; congruence. Qed.

Lemma model_dump_inj : forall r1 r2,
  CreateKnowledgeBaseRequest.model_dump true r1
  = CreateKnowledgeBaseRequest.model_dump true r2 ->
  r1 = r2.
Proof.
  intros [n1 [d1 |]] [n2 [d2 |]] Heq; rewrite !model_dump_exclude_none in Heq;
    simpl in Heq; congruence.
Qed.

Lemma request_of_determines_arguments :
  forall (self : Client.t),
    (forall m1 s1 m2 s2,
        request_of self (call_chat m1 s1) = request_of self (call_chat m2 s2) ->
        m1 = m2 /\ s1 = s2) /\
    (forall i1 c1 i2 c2,
        request_of self (call_create_run i1 c1) = request_of self (call_create_run i2 c2) ->
        i1 = i2 /\ (c1 = None <-> c2 = None)) /\
    (forall t1 m1 t2 m2,
        request_of self (call_ingest t1 m1) = request_of self (call_ingest t2 m2) ->
        t1 = t2 /\ (m1 = None <-> m2 = None)) /\
    (forall r1 r2,
        request_of self (call_create_knowledge_base r1)
        = request_of self (call_create_knowledge_base r2) ->
        r1 = r2).
Proof.
  intros self. repeat split; intros;
    match goal with
    | H : request_of _ _ = request_of _ _ |- _ =>
        cbv beta iota zeta delta [request_of] in H; apply Some_inj in H;
        injection H; intros
    end;
    first [ apply model_dump_inj; congruence
          | apply of_optional_JStr_inj; congruence
          | match goal with
            | E : of_optional JObj _ = of_optional JObj _ |- _ =>
                apply of_optional_JObj_none in E; destruct E; auto
            end
          | congruence ].
Qed.

Lemma sent_request_is_own : forall (scalars : Scalars) (transport : Transport)
    (self : Client.t) (c : Call) (h : AsyncClient) (req : Request),
  sent (snd (perform transport self c h)) = sent h ++ [req] ->
  request_of self c = Some req.
Proof.
  intros scalars transport self c h req Hsent.
  rewrite perform_sent in Hsent.
  assert (Hgrow : forall l : list Request, l <> l ++ [req]).
  { intros l Heq. apply (f_equal (@length Request)) in Heq.
    rewrite length_app in Heq. simpl in Heq. lia. }
  destruct (request_of self c) as [r |]; [| exfalso; exact (Hgrow _ Hsent)].
  destruct (is_closed h); [exfalso; exact (Hgrow _ Hsent) |].
  apply app_inv_head in Hsent. congruence.
Qed.

(** X8. What was sent tells the arguments of [chat] and of
    [create_knowledge_base] apart: when two calls of [chat] have each sent
    the same request they were given the same message and the same
    session id, so a session id that was left out differs on the wire
    from every one that could have been supplied, the empty one included;
    two calls of [create_knowledge_base] that sent the same request were
    given equal requests, although fields that are [None] are left out.
    For [create_run] and [ingest] the same holds of the text and of
    whether a context or metadata was given at all. *)
Theorem post_body_determines_arguments :
  forall (scalars : Scalars) (transport : Transport) (self : Client.t)
         (h : AsyncClient) (req : Request),
    (forall m1 s1 m2 s2,
        sent (snd (perform transport self (call_chat m1 s1) h)) = sent h ++ [req] ->
        sent (snd (perform transport self (call_chat m2 s2) h)) = sent h ++ [req] ->
        m1 = m2 /\ s1 = s2) /\
    (forall r1 r2,
        sent (snd (perform transport self (call_create_knowledge_base r1) h))
        = sent h ++ [req] ->
        sent (snd (perform transport self (call_create_knowledge_base r2) h))
        = sent h ++ [req] ->
        r1 = r2) /\
    (forall i1 c1 i2 c2,
        sent (snd (perform transport self (call_create_run i1 c1) h)) = sent h ++ [req] ->
        sent (snd (perform transport self (call_create_run i2 c2) h)) = sent h ++ [req] ->
        i1 = i2 /\ (c1 = None <-> c2 = None)) /\
    (forall t1 m1 t2 m2,
        sent (snd (perform transport self (call_ingest t1 m1) h)) = sent h ++ [req] ->
        sent (snd (perform transport self (call_ingest t2 m2) h)) = sent h ++ [req] ->
        t1 = t2 /\ (m1 = None <-> m2 = None)).
Proof.
  intros scalars transport self h req.
  destruct (request_of_determines_arguments self) as (Hchat & Hrun & Hingest & Hkb).
  split; [| split; [| split]]; intros until 2;
    match goal with
    | H1 : sent _ = _, H2 : sent _ = _ |- _ =>
        apply (sent_request_is_own scalars) in H1;
        apply (sent_request_is_own scalars) in H2
    end;
    first [ apply Hchat; congruence | apply Hkb; congruence
          | apply Hrun; congruence | apply Hingest; congruence ].
Qed.

Lemma post_body_determines_arguments_witness :
  sent (snd (perform (scalars := exact_scalars) (always ok_empty) localhost
               (call_chat "hi" None) AsyncClient_new))
  = sent AsyncClient_new
    ++ [{| method := POST;
           url := Client.base_url localhost ++ "/api/chat";
           json_body := Some (JObj [("message", JStr "hi"); ("session_id", JNull)]) |}] /\
  sent (snd (perform (scalars := exact_scalars) (always ok_empty) localhost
               (call_chat "hi" (Some "")) AsyncClient_new))
  <> sent AsyncClient_new
     ++ [{| method := POST;
            url := Client.base_url localhost ++ "/api/chat";
            json_body := Some (JObj [("message", JStr "hi"); ("session_id", JNull)]) |}].
Proof.
  split; [reflexivity |].
  intros Hsame.
  destruct (proj1 (post_body_determines_arguments exact_scalars (always ok_empty)
                     localhost AsyncClient_new _)
              "hi" None "hi" (Some "") eq_refl Hsame) as [_ Hsid].
  discriminate Hsid.
Defined.

(** ** What validation looks at *)

Ltac by_declared_fields :=
  let o1 := fresh "o1" in
  let o2 := fresh "o2" in
  let H := fresh "H" in
  intros o1 o2 H;
  cbv beta iota delta
    [ChatResponse.model_validate Message.model_validate RunResponse.model_validate
     KnowledgeBaseConfig.model_validate KnowledgeBase.model_validate
     Document.model_validate SearchResult.model_validate
     SearchResponse.model_validate IngestResponse.model_validate
     required with_default];
  repeat match goal with
         | |- context [lookup ?k o1] => rewrite (H k) by (simpl; auto 10)
         end;
  reflexivity.

(** X9. Validation of a payload object reads the members named after the
    declared fields of the model and nothing else: two objects that agree
    on those members validate alike, so members the model does not
    declare are ignored, wherever they stand and whatever they hold. *)
Theorem validation_reads_declared_fields_only :
  forall (scalars : Scalars),
    (forall o1 o2,
        (forall k, In k ["session_id"; "stream_url"] -> lookup k o1 = lookup k o2) ->
        ChatResponse.model_validate (JObj o1) = ChatResponse.model_validate (JObj o2)) /\
    (forall o1 o2,
        (forall k, In k ["role"; "content"] -> lookup k o1 = lookup k o2) ->
        Message.model_validate (JObj o1) = Message.model_validate (JObj o2)) /\
    (forall o1 o2,
        (forall k, In k ["id"; "stream_url"] -> lookup k o1 = lookup k o2) ->
        RunResponse.model_validate (JObj o1) = RunResponse.model_validate (JObj o2)) /\
    (forall o1 o2,
        (forall k, In k ["embedding_provider"; "embedding_model"; "vector_dimensions";
                         "file_processor"; "chunk_strategy"] ->
                   lookup k o1 = lookup k o2) ->
        KnowledgeBaseConfig.model_validate (JObj o1)
        = KnowledgeBaseConfig.model_validate (JObj o2)) /\
    (forall o1 o2,
        (forall k, In k ["id"; "name"; "description"; "config"; "created_at"; "updated_at"] ->
                   lookup k o1 = lookup k o2) ->
        KnowledgeBase.model_validate (JObj o1) = KnowledgeBase.model_validate (JObj o2)) /\
    (forall o1 o2,
        (forall k, In k ["id"; "kb_id"; "filename"; "mime_type"; "chunk_count"; "status";
                         "error_message"] ->
                   lookup k o1 = lookup k o2) ->
        Document.model_validate (JObj o1) = Document.model_validate (JObj o2)) /\
    (forall o1 o2,
        (forall k, In k ["content"; "score"; "metadata"; "document_id"] ->
                   lookup k o1 = lookup k o2) ->
        SearchResult.model_validate (JObj o1) = SearchResult.model_validate (JObj o2)) /\
    (forall o1 o2,
        (forall k, In k ["results"] -> lookup k o1 = lookup k o2) ->
        SearchResponse.model_validate (JObj o1) = SearchResponse.model_validate (JObj o2)) /\
    (forall o1 o2,
        (forall k, In k ["success"; "chunk_count"] -> lookup k o1 = lookup k o2) ->
        IngestResponse.model_validate (JObj o1) = IngestResponse.model_validate (JObj o2)).
Proof.
  intros scalars.
  repeat match goal with |- _ /\ _ => split end; by_declared_fields.
Qed.

Lemma validation_reads_declared_fields_only_witness :
  ChatResponse.model_validate
    (JObj [("trace", JInt 7); ("session_id", JStr "s1"); ("stream_url", JStr "/u")])
  = ChatResponse.model_validate
      (JObj [("stream_url", JStr "/u"); ("session_id", JStr "s1")]).
Proof.
  apply (proj1 (validation_reads_declared_fields_only exact_scalars)).
  intros k [<- | [<- | []]]; reflexivity.
Defined.

(** ** Explicit [null] *)

Ltac rejected :=
  repeat match goal with
         | |- match ?x with Some _ => _ | None => None end = None =>
             destruct x; [| reflexivity]
         | |- None = None => reflexivity
         | |- match ?x with Some _ => _ | None => None end = _ =>
             destruct x; [| reflexivity]
         end.

Ltac null_member_rejected :=
  intros;
  cbv beta iota delta
    [ChatResponse.model_validate Message.model_validate RunResponse.model_validate
     KnowledgeBaseConfig.model_validate KnowledgeBase.model_validate
     Document.model_validate SearchResult.model_validate
     SearchResponse.model_validate IngestResponse.model_validate];
  repeat match goal with
         | Hk : In _ (_ :: _) |- _ => destruct Hk as [<- | Hk]
         | Hk : In _ [] |- _ => destruct Hk
         end;
  match goal with
  | |- context [required ?v ?f ((?f, JNull) :: ?o)] =>
      let E := fresh "E" in
      assert (E : required v f ((f, JNull) :: o) = None)
        by (unfold required; simpl lookup; first [reflexivity | assumption]);
      rewrite E
  | |- context [with_default ?v ?d ?f ((?f, JNull) :: ?o)] =>
      let E := fresh "E" in
      assert (E : with_default v d f ((f, JNull) :: o) = None)
        by (unfold with_default; simpl lookup; first [reflexivity | assumption]);
      rewrite E
  end;
  rejected.

(** X10. An explicit [null] is taken like a missing member by the five
    fields declared [T | None] ([description], [mime_type],
    [error_message], [document_id], [vector_dimensions]) and by no other:
    a payload in which any other declared field is [null] does not
    validate.  This holds of every string field, required or with a
    default (a config with ["embedding_model": null] is rejected although
    the same config without the member validates), of [config], [metadata]
    and [results], and of the integer, float and boolean fields wherever
    the coercion of that type rejects [null]. *)
Theorem explicit_null_only_for_optional_types :
  forall (scalars : Scalars),
    (forall o, lookup "description" o = None ->
       KnowledgeBase.model_validate (JObj (("description", JNull) :: o))
       = KnowledgeBase.model_validate (JObj o)) /\
    (forall o, lookup "mime_type" o = None ->
       Document.model_validate (JObj (("mime_type", JNull) :: o))
       = Document.model_validate (JObj o)) /\
    (forall o, lookup "error_message" o = None ->
       Document.model_validate (JObj (("error_message", JNull) :: o))
       = Document.model_validate (JObj o)) /\
    (forall o, lookup "document_id" o = None ->
       SearchResult.model_validate (JObj (("document_id", JNull) :: o))
       = SearchResult.model_validate (JObj o)) /\
    (forall o, lookup "vector_dimensions" o = None ->
       KnowledgeBaseConfig.model_validate (JObj (("vector_dimensions", JNull) :: o))
       = KnowledgeBaseConfig.model_validate (JObj o)) /\
    (forall o k, In k ["session_id"; "stream_url"] ->
       ChatResponse.model_validate (JObj ((k, JNull) :: o)) = None) /\
    (forall o k, In k ["role"; "content"] ->
       Message.model_validate (JObj ((k, JNull) :: o)) = None) /\
    (forall o k, In k ["id"; "stream_url"] ->
       RunResponse.model_validate (JObj ((k, JNull) :: o)) = None) /\
    (forall o k,
        In k ["embedding_provider"; "embedding_model"; "file_processor"; "chunk_strategy"] ->
        KnowledgeBaseConfig.model_validate (JObj ((k, JNull) :: o)) = None) /\
    (forall o k, In k ["id"; "name"; "config"; "created_at"; "updated_at"] ->
       KnowledgeBase.model_validate (JObj ((k, JNull) :: o)) = None) /\
    (forall o k, In k ["id"; "kb_id"; "filename"; "status"] ->
       Document.model_validate (JObj ((k, JNull) :: o)) = None) /\
    (forall o, int_validator JNull = None ->
       Document.model_validate (JObj (("chunk_count", JNull) :: o)) = None) /\
    (forall o k, In k ["content"; "metadata"] ->
       SearchResult.model_validate (JObj ((k, JNull) :: o)) = None) /\
    (forall o, float_validator JNull = None ->
       SearchResult.model_validate (JObj (("score", JNull) :: o)) = None) /\
    (forall o, SearchResponse.model_validate (JObj (("results", JNull) :: o)) = None) /\
    (forall o, bool_validator JNull = None ->
       IngestResponse.model_validate (JObj (("success", JNull) :: o)) = None) /\
    (forall o, int_validator JNull = None ->
       IngestResponse.model_validate (JObj (("chunk_count", JNull) :: o)) = None).
Proof.
  intros scalars.
  repeat match goal with |- _ /\ _ => split end.
  1-5: intros o Habsent;
    cbv beta iota delta
      [KnowledgeBaseConfig.model_validate KnowledgeBase.model_validate
       Document.model_validate SearchResult.model_validate required with_default];
    simpl lookup; rewrite Habsent; reflexivity.
  all: null_member_rejected.
Qed.

Lemma explicit_null_only_for_optional_types_witness :
  IngestResponse.model_validate (H := exact_scalars)
    (JObj [("chunk_count", JNull); ("success", JBool true)]) = None /\
  IngestResponse.model_validate (H := exact_scalars)
    (JObj [("success", JNull); ("chunk_count", JInt 3)]) = None.
Proof.
  split.
  - exact (proj2 (proj2 (proj2 (proj2 (proj2 (proj2 (proj2 (proj2 (proj2 (proj2
             (proj2 (proj2 (proj2 (proj2 (proj2 (proj2
               (explicit_null_only_for_optional_types exact_scalars))))))))))))))))
             [("success", JBool true)] eq_refl).
  - exact (proj1 (proj2 (proj2 (proj2 (proj2 (proj2 (proj2 (proj2 (proj2 (proj2 (proj2
             (proj2 (proj2 (proj2 (proj2 (proj2
               (explicit_null_only_for_optional_types exact_scalars))))))))))))))))
             [("chunk_count", JInt 3)] eq_refl).
Defined.

(** ** List methods *)

Lemma validate_all_Some : forall A (v : validator A) items xs,
  validate_all v items = Some xs <-> Forall2 (fun j a => v j = Some a) items xs.
Proof.
  intros A v items. induction items as [| j rest IH]; intros xs; simpl.
  - split.
    + intros [= <-]. constructor.
    + intros H. inversion H. reflexivity.
  - split.
    + destruct (v j) as [a |] eqn:Hj; [| discriminate].
      destruct (validate_all v rest) as [others |] eqn:Hrest; [| discriminate].
      intros [= <-]. constructor; [exact Hj | apply IH; reflexivity].
    + intros H. inversion H as [| j' a rest' others Hj Hrest]; subst.
      rewrite Hj. apply IH in Hrest. rewrite Hrest. reflexivity.
Qed.

Lemma validate_all_None : forall A (v : validator A) items,
  validate_all v items = None <-> Exists (fun j => v j = None) items.
Proof.
  intros A v items. induction items as [| j rest IH]; simpl.
  - split; [discriminate | intros H; inversion H].
  - destruct (v j) as [a |] eqn:Hj.
    + destruct (validate_all v rest) as [others |] eqn:Hrest.
      * split; [discriminate |].
        intros H. inversion H as [? ? Hbad | ? ? Hex]; subst; [congruence |].
        apply IH in Hex. discriminate.
      * split; [intros _ | reflexivity].
        apply Exists_cons_tl. apply IH. reflexivity.
    + split; [intros _ | reflexivity]. apply Exists_cons_hd. exact Hj.
Qed.

Ltac list_outcome Hopen Hres Hok Hj :=
  erewrite perform_open; [| reflexivity | exact Hopen];
  rewrite Hres, Hok;
  cbv beta iota delta [outcome_of decode_list]; rewrite Hj; simpl items_of; cbv beta iota.

(** X11. Given a successful response whose payload is an array, a list
    method returns one record per element, in the order of the array,
    each the validation of its element (so the result is as long as the
    array), and raises [ValidationError] exactly when some element does
    not validate; no element is skipped or dropped. *)
Theorem list_methods_validate_each_element_in_order :
  forall (scalars : Scalars) (transport : Transport) (self : Client.t) (h : AsyncClient)
         (res : Response) (items : list JSON),
    state h <> CLOSED ->
    (forall req, transport (sent h) req = Some res) ->
    is_success res = true ->
    json res = Some (JArr items) ->
    (forall sid ms,
        fst (perform transport self (call_get_messages sid) h) = inr (VMessages ms) <->
        Forall2 (fun j m => Message.model_validate j = Some m) items ms) /\
    (forall sid,
        fst (perform transport self (call_get_messages sid) h) = inl ValidationError <->
        Exists (fun j => Message.model_validate j = None) items) /\
    (forall kbs,
        fst (perform transport self call_list_knowledge_bases h) = inr (VKnowledgeBases kbs) <->
        Forall2 (fun j kb => KnowledgeBase.model_validate j = Some kb) items kbs) /\
    (fst (perform transport self call_list_knowledge_bases h) = inl ValidationError <->
     Exists (fun j => KnowledgeBase.model_validate j = None) items) /\
    (forall kb_id ds,
        fst (perform transport self (call_list_documents kb_id) h) = inr (VDocuments ds) <->
        Forall2 (fun j d => Document.model_validate j = Some d) items ds) /\
    (forall kb_id,
        fst (perform transport self (call_list_documents kb_id) h) = inl ValidationError <->
        Exists (fun j => Document.model_validate j = None) items).
Proof.
  intros scalars transport self h res items Hopen Hres Hok Hj.
  repeat match goal with |- _ /\ _ => split end; intros.
  - list_outcome Hopen Hres Hok Hj.
    rewrite <- validate_all_Some.
    destruct (validate_all Message.model_validate items); simpl;
      split; intros H; congruence.
  - list_outcome Hopen Hres Hok Hj.
    rewrite <- validate_all_None.
    destruct (validate_all Message.model_validate items); simpl;
      split; intros H; congruence.
  - list_outcome Hopen Hres Hok Hj.
    rewrite <- validate_all_Some.
    destruct (validate_all KnowledgeBase.model_validate items); simpl;
      split; intros H; congruence.
  - list_outcome Hopen Hres Hok Hj.
    rewrite <- validate_all_None.
    destruct (validate_all KnowledgeBase.model_validate items); simpl;
      split; intros H; congruence.
  - list_outcome Hopen Hres Hok Hj.
    rewrite <- validate_all_Some.
    destruct (validate_all Document.model_validate items); simpl;
      split; intros H; congruence.
  - list_outcome Hopen Hres Hok Hj.
    rewrite <- validate_all_None.
    destruct (validate_all Document.model_validate items); simpl;
      split; intros H; congruence.
Qed.

Lemma list_methods_validate_each_element_in_order_witness :
  fst (perform (scalars := exact_scalars) (always (ok_json two_messages)) localhost
         (call_get_messages "s1") AsyncClient_new)
  = inr (VMessages [Message.mk "user" "hi"; Message.mk "assistant" "hello"]).
Proof.
  assert (Hopen : state AsyncClient_new <> CLOSED) by discriminate.
  apply (proj1 (list_methods_validate_each_element_in_order exact_scalars
                  (always (ok_json two_messages)) localhost AsyncClient_new
                  (ok_json two_messages) _ Hopen (fun _ => eq_refl) eq_refl eq_refl)).
  repeat constructor.
Defined.

Lemma decode_list_not_array : forall A (v : validator A) (inj : list A -> Value) res j,
  json res = Some j ->
  (forall s, v (JStr s) = None) ->
  decode_list v inj res
  = match j with
    | JArr items =>
        match validate_all v items with
        | Some xs => inr (inj xs)
        | None => inl ValidationError
        end
    | JObj [] | JStr EmptyString => inr (inj [])
    | JObj (_ :: _) | JStr (String _ _) => inl ValidationError
    | JNull | JBool _ | JInt _ | JFloat _ => inl TypeError
    end.
Proof.
  intros A v inj res j Hj Hstr. unfold decode_list. rewrite Hj.
  destruct j as [| b | n | f | s | items | o]; simpl; try reflexivity.
  - destruct s as [| a s]; simpl; [reflexivity |]. rewrite Hstr. reflexivity.
  - destruct o as [| [k x] o]; simpl; [reflexivity |]. rewrite Hstr. reflexivity.
Qed.

(** X12. What a list method makes of a successful response whose payload
    is not an array: an object or a string is iterated (member names,
    characters), so when it is empty the method returns the empty list
    and otherwise it raises [ValidationError]; [null], a boolean or a
    number cannot be iterated and the method raises [TypeError]. *)
Theorem list_methods_on_payloads_that_are_no_arrays :
  forall (scalars : Scalars) (transport : Transport) (self : Client.t) (c : Call)
         (req : Request) (h : AsyncClient) (res : Response) (j : JSON),
    is_list_call c = true ->
    request_of self c = Some req ->
    state h <> CLOSED ->
    transport (sent h) req = Some res ->
    is_success res = true ->
    json res = Some j ->
    match j with
    | JArr _ => True
    | JObj [] | JStr EmptyString =>
        fst (perform transport self c h) = inr (empty_list_of c)
    | JObj (_ :: _) | JStr (String _ _) =>
        fst (perform transport self c h) = inl ValidationError
    | JNull | JBool _ | JInt _ | JFloat _ =>
        fst (perform transport self c h) = inl TypeError
    end.
Proof.
  intros scalars transport self c req h res j Hlist Hreq Hopen Hres Hok Hj.
  rewrite (perform_open transport self c req h Hreq Hopen), Hres, Hok.
  destruct c; simpl in Hlist; try discriminate; cbv beta iota delta [outcome_of fst];
    rewrite (decode_list_not_array _ _ _ res j Hj) by (intros s; reflexivity);
    destruct j as [| b | n | f | [| a s] | items | [| [k x] o]]; try reflexivity; exact I.
Qed.

Lemma list_methods_on_payloads_that_are_no_arrays_witness :
  fst (perform (scalars := exact_scalars)
         (always (ok_json (JObj [("error", JStr "no such session")]))) localhost
         (call_get_messages "s1") AsyncClient_new)
  = inl ValidationError.
Proof.
  assert (Hopen : state AsyncClient_new <> CLOSED) by discriminate.
  exact (list_methods_on_payloads_that_are_no_arrays exact_scalars
           (always (ok_json (JObj [("error", JStr "no such session")]))) localhost
           (call_get_messages "s1") _ AsyncClient_new
           (ok_json (JObj [("error", JStr "no such session")]))
           (JObj [("error", JStr "no such session")])
           eq_refl eq_refl Hopen eq_refl eq_refl eq_refl).
Defined.

(** ** Calls do not depend on each other *)

(** X13. The client keeps no state between calls besides the session: on
    two sessions that are not closed, whatever was sent through them
    before, a network method that gets the same answer from the transport
    has the same outcome; and a call releases nothing and does not close
    the session. *)
Theorem outcome_depends_on_the_answer_only :
  forall (scalars : Scalars) (transport1 transport2 : Transport) (self : Client.t)
         (c : Call) (req : Request) (h1 h2 : AsyncClient),
    request_of self c = Some req ->
    state h1 <> CLOSED ->
    state h2 <> CLOSED ->
    transport1 (sent h1) req = transport2 (sent h2) req ->
    fst (perform transport1 self c h1) = fst (perform transport2 self c h2) /\
    releases (snd (perform transport1 self c h1)) = releases h1 /\
    state (snd (perform transport1 self c h1)) <> CLOSED.
Proof.
  intros scalars transport1 transport2 self c req h1 h2 Hreq Hopen1 Hopen2 Hsame.
  rewrite (perform_open transport1 self c req h1 Hreq Hopen1).
  rewrite (perform_open transport2 self c req h2 Hreq Hopen2).
  rewrite Hsame. repeat split. simpl. discriminate.
Qed.

Lemma outcome_depends_on_the_answer_only_witness :
  fst (perform (scalars := exact_scalars) (always (ok_json two_messages)) localhost
         (call_get_messages "s1") AsyncClient_new)
  = fst (perform (scalars := exact_scalars) (always (ok_json two_messages)) localhost
           (call_get_messages "s1")
           (session_after (scalars := exact_scalars) refused localhost
              [call_chat "hi" None; call_list_knowledge_bases] AsyncClient_new)).
Proof.
  assert (Hopen : state AsyncClient_new <> CLOSED) by discriminate.
  assert (Hopen2 : state (session_after (scalars := exact_scalars) refused localhost
                            [call_chat "hi" None; call_list_knowledge_bases]
                            AsyncClient_new) <> CLOSED) by discriminate.
  exact (proj1 (outcome_depends_on_the_answer_only exact_scalars
                  (always (ok_json two_messages)) (always (ok_json two_messages))
                  localhost (call_get_messages "s1") _ _ _ eq_refl Hopen Hopen2 eq_refl)).
Defined.

(** ** What an exception tells the caller *)

Lemma decode_record_error : forall A (v : validator A) (inj : A -> Value) res e,
  decode_record v inj res = inl e ->
  (e = JSONDecodeError /\ json res = None) \/
  (e = ValidationError /\ exists j, json res = Some j /\ v j = None).
Proof.
  intros A v inj res e. unfold decode_record.
  destruct (json res) as [j |]; [| intros [= <-]; left; split; reflexivity].
  destruct (v j) eqn:Hv; [discriminate |].
  intros [= <-]. right. split; [reflexivity | exists j; split; [reflexivity | exact Hv]].
Qed.

Lemma decode_list_error : forall A (v : validator A) (inj : list A -> Value) res e,
  decode_list v inj res = inl e ->
  (e = JSONDecodeError /\ json res = None) \/
  (e = TypeError /\ exists j, json res = Some j /\ items_of j = inl TypeError) \/
  (e = ValidationError /\ exists j, json res = Some j /\ items_of j <> inl TypeError).
Proof.
  intros A v inj res e. unfold decode_list.
  destruct (json res) as [j |]; [| intros [= <-]; left; split; reflexivity].
  destruct (items_of j) as [e' | items] eqn:Hit.
  - intros [= <-]. right; left.
    destruct j; simpl in Hit; try discriminate; injection Hit as <-;
      (split; [reflexivity | eexists; split; reflexivity]).
  - destruct (validate_all v items); [discriminate |].
    intros [= <-]. right; right. split; [reflexivity |].
    exists j. split; [reflexivity | congruence].
Qed.

(** X14. What an exception of a network method tells its caller, on a
    session that is not closed.  An [ApiError] is raised only for a
    response that is not successful, and holds its status and its text.
    A [ValidationError] is raised only after a successful response whose
    body was decoded, and only by a method that reads the body (never by
    [delete_knowledge_base]).  The transport's failure is raised only when
    the transport failed. *)
Theorem causes_of_api_and_validation_errors :
  forall (scalars : Scalars) (transport : Transport) (self : Client.t) (c : Call)
         (req : Request) (h : AsyncClient) (e : Exn),
    request_of self c = Some req ->
    state h <> CLOSED ->
    fst (perform transport self c h) = inl e ->
    match e with
    | ApiError st msg =>
        exists res, transport (sent h) req = Some res /\ is_success res = false /\
                    st = status_code res /\ msg = text res
    | ValidationError =>
        exists res j, transport (sent h) req = Some res /\ is_success res = true /\
                      json res = Some j /\ reads_body c = true
    | TransportError => transport (sent h) req = None
    | _ => True
    end.
Proof.
  intros scalars transport self c req h e Hreq Hopen Hraise.
  rewrite (perform_open transport self c req h Hreq Hopen) in Hraise. simpl in Hraise.
  destruct (transport (sent h) req) as [res |] eqn:Ht;
    [| injection Hraise as <-; reflexivity].
  destruct (is_success res) eqn:Hok;
    [| injection Hraise as <-; exists res; repeat split; first [assumption | reflexivity]].
  destruct c; simpl in Hreq; try discriminate; cbv beta iota delta [outcome_of] in Hraise;
    try discriminate;
    first
      [ apply decode_record_error in Hraise;
        destruct Hraise as [[-> Hj] | [-> (j & Hj & _)]];
        [ exact I
        | exists res, j; repeat split; first [assumption | reflexivity] ]
      | apply decode_list_error in Hraise;
        destruct Hraise as [[-> Hj] | [[-> (j & Hj & Hit)] | [-> (j & Hj & _)]]];
        [ exact I
        | exact I
        | exists res, j; repeat split; first [assumption | reflexivity] ] ].
Qed.

Lemma causes_of_api_and_validation_errors_witness :
  exists res,
    always server_error (sent AsyncClient_new)
      {| method := DELETE;
         url := Client.base_url localhost ++ "/api/knowledge/" ++ "kb1";
         json_body := None |} = Some res /\
    is_success res = false /\ 500%Z = status_code res /\ "boom" = text res.
Proof.
  assert (Hopen : state AsyncClient_new <> CLOSED) by discriminate.
  exact (causes_of_api_and_validation_errors exact_scalars (always server_error) localhost
           (call_delete_knowledge_base "kb1") _ AsyncClient_new (ApiError 500 "boom")
           eq_refl Hopen eq_refl).
Defined.

(** ** Validated records and their payload *)

Lemma optional_str_inv : forall k o d,
  with_default (nullable str_validator) None k o = Some d ->
  d = optional_str_of (lookup k o).
Proof.
  intros k o d. unfold with_default, optional_str_of.
  destruct (lookup k o) as [[] |]; simpl; congruence.
Qed.

Lemma required_inv : forall A (v : validator A) k o a,
  required v k o = Some a -> exists j, lookup k o = Some j /\ v j = Some a.
Proof.
  intros A v k o a. unfold required.
  destruct (lookup k o) as [j |]; [| discriminate].
  intros Hv. exists j. split; [reflexivity | exact Hv].
Qed.

Ltac fields_of_validated :=
  repeat match goal with
         | H : context [match ?x with Some _ => _ | None => None end] |- _ =>
             let E := fresh "E" in destruct x eqn:E; [| discriminate H]
         end;
  match goal with H : Some _ = Some _ |- _ => injection H as <- end;
  cbn [ChatResponse.session_id ChatResponse.stream_url Message.role Message.content
       RunResponse.id RunResponse.stream_url
       Document.id Document.kb_id Document.filename Document.mime_type
       Document.chunk_count Document.status Document.error_message
       SearchResult.content SearchResult.score SearchResult.metadata
       SearchResult.document_id SearchResponse.results
       IngestResponse.success IngestResponse.chunk_count];
  repeat match goal with
         | |- _ /\ _ => split
         | |- lookup _ _ = Some (JStr _) => apply required_str_inv; assumption
         | |- _ = optional_str_of _ => apply optional_str_inv; assumption
         | |- exists j, lookup _ _ = Some j /\ _ => apply required_inv; assumption
         end.

(** X15. A record that validated carries the values of its payload and
    nothing else.  [ChatResponse], [Message] and [RunResponse] validate
    exactly when both of their members are JSON strings, and hold those
    strings.  For [Document], [SearchResult] and [IngestResponse] every
    string field is the payload's string, every optional string field is
    the payload's string or [None] when the member is missing or [null],
    every numeric or boolean field is what the coercion gives for the
    payload's member, and [metadata] is the payload's object, unchanged;
    a [SearchResponse] holds the validated elements of [results] in their
    order.  A payload that is not a JSON object validates as no record. *)
Theorem validated_records_carry_the_payload :
  forall (scalars : Scalars),
    (forall o r,
        ChatResponse.model_validate (JObj o) = Some r <->
        lookup "session_id" o = Some (JStr (ChatResponse.session_id r)) /\
        lookup "stream_url" o = Some (JStr (ChatResponse.stream_url r))) /\
    (forall o r,
        Message.model_validate (JObj o) = Some r <->
        lookup "role" o = Some (JStr (Message.role r)) /\
        lookup "content" o = Some (JStr (Message.content r))) /\
    (forall o r,
        RunResponse.model_validate (JObj o) = Some r <->
        lookup "id" o = Some (JStr (RunResponse.id r)) /\
        lookup "stream_url" o = Some (JStr (RunResponse.stream_url r))) /\
    (forall o d,
        Document.model_validate (JObj o) = Some d ->
        lookup "id" o = Some (JStr (Document.id d)) /\
        lookup "kb_id" o = Some (JStr (Document.kb_id d)) /\
        lookup "filename" o = Some (JStr (Document.filename d)) /\
        lookup "status" o = Some (JStr (Document.status d)) /\
        Document.mime_type d = optional_str_of (lookup "mime_type" o) /\
        Document.error_message d = optional_str_of (lookup "error_message" o) /\
        (exists j, lookup "chunk_count" o = Some j /\
                   int_validator j = Some (Document.chunk_count d))) /\
    (forall o r,
        SearchResult.model_validate (JObj o) = Some r ->
        lookup "content" o = Some (JStr (SearchResult.content r)) /\
        lookup "metadata" o = Some (JObj (SearchResult.metadata r)) /\
        SearchResult.document_id r = optional_str_of (lookup "document_id" o) /\
        (exists j, lookup "score" o = Some j /\
                   float_validator j = Some (SearchResult.score r))) /\
    (forall o r,
        SearchResponse.model_validate (JObj o) = Some r ->
        exists items,
          lookup "results" o = Some (JArr items) /\
          Forall2 (fun j x => SearchResult.model_validate j = Some x)
            items (SearchResponse.results r)) /\
    (forall o r,
        IngestResponse.model_validate (JObj o) = Some r ->
        (exists j, lookup "success" o = Some j /\
                   bool_validator j = Some (IngestResponse.success r)) /\
        (exists j, lookup "chunk_count" o = Some j /\
                   int_validator j = Some (IngestResponse.chunk_count r))) /\
    (forall j, (forall o, j <> JObj o) ->
       ChatResponse.model_validate j = None /\ Message.model_validate j = None /\
       RunResponse.model_validate j = None /\ KnowledgeBase.model_validate j = None /\
       KnowledgeBaseConfig.model_validate j = None /\ Document.model_validate j = None /\
       SearchResult.model_validate j = None /\ SearchResponse.model_validate j = None /\
       IngestResponse.model_validate j = None).
Proof.
  intros scalars.
  repeat match goal with |- _ /\ _ => split end.
  - intros o r; split.
    + intros H. unfold ChatResponse.model_validate in H. fields_of_validated.
    + destruct r as [sid url]; simpl. intros [H1 H2]. unfold ChatResponse.model_validate.
      rewrite (required_str_present _ _ _ H1), (required_str_present _ _ _ H2). reflexivity.
  - intros o r; split.
    + intros H. unfold Message.model_validate in H. fields_of_validated.
    + destruct r as [role content]; simpl. intros [H1 H2]. unfold Message.model_validate.
      rewrite (required_str_present _ _ _ H1), (required_str_present _ _ _ H2). reflexivity.
  - intros o r; split.
    + intros H. unfold RunResponse.model_validate in H. fields_of_validated.
    + destruct r as [id url]; simpl. intros [H1 H2]. unfold RunResponse.model_validate.
      rewrite (required_str_present _ _ _ H1), (required_str_present _ _ _ H2). reflexivity.
  - intros o d H. unfold Document.model_validate in H. fields_of_validated.
  - intros o r H. unfold SearchResult.model_validate in H. fields_of_validated.
    unfold required in E1. destruct (lookup "metadata" o) as [[] |]; simpl in E1; congruence.
  - intros o r H. unfold SearchResponse.model_validate in H.
    destruct (required (list_validator SearchResult.model_validate) "results" o)
      as [rs |] eqn:E; [| discriminate].
    injection H as <-. simpl.
    apply required_inv in E. destruct E as (j & Hj & Hv).
    destruct j; simpl in Hv; try discriminate.
    exists items. split; [exact Hj | apply validate_all_Some; exact Hv].
  - intros o r H. unfold IngestResponse.model_validate in H. fields_of_validated.
  - intros j Hj. destruct j; try (repeat split; reflexivity).
    exfalso. exact (Hj _ eq_refl).
Qed.
